(** * HID service front end: shallow embedding of [hid_server.cpp]

    The file models the request handlers of
    [src/core/hle/service/hid/hid_server.cpp]:

    - [IActiveVibrationDeviceList::ActivateVibrationDeviceImpl], the bounded,
      de-duplicating list of activated vibration devices;
    - the [IHidServer] handlers that activate a device, the handlers that
      have been stubbed, [GetXpadIds] and [SendVibrationValues].

    The handlers talk to collaborators that live in other translation units
    (the resource manager and its devices, the firmware settings).  A handler
    is therefore a finite tree of calls ([Prog]); running it against any
    implementation of the collaborators ([Collaborators]) yields the value it
    returns, the collaborators' final state and the calls it made, in order,
    with their answers.

    Handlers take their parameters decoded ([rp.Pop], [rp.PopRaw]) and their
    input buffers as lists of elements; logging is left out. *)

From stdpp Require Import base numbers list strings.

Local Open Scope Z_scope.

(** ** Result codes ([Result], common/hle result type) *)

(** A [Result] is its raw 32-bit code; [IsSuccess] is [raw == 0] and
    [IsError] is [raw != 0]. *)
Record Result : Type := MkResult { raw : Z }.

Definition ResultSuccess : Result := MkResult 0.

Definition IsSuccess (r : Result) : bool := raw r =? 0.

Definition IsError (r : Result) : bool := negb (raw r =? 0).

(** ** Device handles *)

(** [Core::HID::VibrationDeviceHandle] is declared outside this file.  The
    handlers read its fields [npad_type], [npad_id] and [device_index]; the
    parameter blocks that embed it ([handle], one padding word, a [u64], in
    0x10 bytes) make it four bytes wide, so one more byte travels with the
    three fields.  [handle_padding] is that byte: it is copied with the
    handle and never inspected. *)
Record VibrationDeviceHandle : Type := MkHandle {
  npad_type : Z;
  npad_id : Z;
  device_index : Z;
  handle_padding : Z
}.

(** The test inlined in the scan of [ActivateVibrationDeviceImpl]:
    [handle.device_index == e.device_index && handle.npad_id == e.npad_id &&
     handle.npad_type == e.npad_type]. *)
Definition handle_matches (handle e : VibrationDeviceHandle) : bool :=
  (device_index handle =? device_index e) &&
  (npad_id handle =? npad_id e) &&
  (npad_type handle =? npad_type e).

(** ** Responses *)

(** What a handler leaves in the request context: the result code pushed
    first, the words pushed after it, and the data handed to
    [ctx.WriteBuffer]. *)
Record Response : Type := MkResponse {
  result_code : Result;
  pushed : list Z;
  written_buffer : list Z
}.

(** [IPC::ResponseBuilder rb{ctx, 2}; rb.Push(result);] *)
Definition respond (result : Result) : Response := MkResponse result [] [].

(** ** Devices reached through the resource manager *)

Inductive Device : Type :=
| DebugPad          (* GetResourceManager()->GetDebugPad() *)
| TouchScreen       (* GetResourceManager()->GetTouchScreen() *)
| Mouse             (* GetResourceManager()->GetMouse() *)
| Keyboard          (* GetResourceManager()->GetKeyboard() *)
| Gesture           (* GetResourceManager()->GetGesture() *)
| ConsoleSixAxis    (* GetResourceManager()->GetConsoleSixAxis() *)
| SevenSixAxis.     (* GetResourceManager()->GetSevenSixAxis() *)

(** ** The vibration device list: data *)

(** [std::size_t list_size{}] and
    [std::array<Core::HID::VibrationDeviceHandle, 0x100> vibration_device_list{}]. *)
Record IActiveVibrationDeviceList : Type := MkList {
  list_size : nat;
  vibration_device_list : list VibrationDeviceHandle
}.

(** [vibration_device_list.size()], that is 0x100. *)
Definition capacity : nat := 256.

(** A value-initialised handle. *)
Definition empty_handle : VibrationDeviceHandle := MkHandle 0 0 0 0.

(** The list as the constructor leaves it. *)
Definition new_list : IActiveVibrationDeviceList :=
  MkList 0 (replicate capacity empty_handle).

(** The array has its 0x100 slots and [list_size] counts some of them.  The
    constructor's list is well formed and every activation keeps it so
    ([well_formed_new_list], [Activate_well_formed]); the properties below
    are stated for such lists. *)
Definition well_formed (self : IActiveVibrationDeviceList) : Prop :=
  length (vibration_device_list self) = capacity /\
  (list_size self <= capacity)%nat.

(** The handles that have been activated: the first [list_size] slots. *)
Definition active_handles (self : IActiveVibrationDeviceList)
  : list VibrationDeviceHandle :=
  take (list_size self) (vibration_device_list self).

(** [handle] is in the list, in the sense of the scan. *)
Definition is_active (handle : VibrationDeviceHandle)
    (self : IActiveVibrationDeviceList) : bool :=
  existsb (handle_matches handle) (active_handles self).

(** No two handles of [hs] match each other. *)
Fixpoint distinct_handles (hs : list VibrationDeviceHandle) : bool :=
  match hs with
  | [] => true
  | h :: rest => negb (existsb (handle_matches h) rest) && distinct_handles rest
  end.

(** The scan [for (i = 0; i < list_size; i++)]: [n] iterations are left and
    the next one reads slot [i].  [Some true] is the early
    [return ResultSuccess], [Some false] is falling out of the loop, and
    [None] is a read past the end of the array. *)
Fixpoint scan_from (handle : VibrationDeviceHandle)
    (lst : list VibrationDeviceHandle) (i n : nat) : option bool :=
  match n with
  | O => Some false
  | S n' =>
      match lst !! i with
      | None => None
      | Some e =>
          if handle_matches handle e then Some true
          else scan_from handle lst (S i) n'
      end
  end.

Section Model.

(** [Core::HID::VibrationValue], declared outside this file and only passed
    on by the handlers. *)
Variable VibrationValue : Type.

(** [IsVibrationHandleValid] of [hid_core/hid_util.h], a function of the
    handle alone. *)
Variable IsVibrationHandleValid : VibrationDeviceHandle -> Result.

(** Two result codes of [hid_core/hid_result.h]. *)
Variable ResultVibrationDeviceIndexOutOfRange : Result.
Variable ResultVibrationArraySizeMismatch : Result.

(** ** Calls into the collaborators *)

Inductive DelegateCall : Type :=
| DeviceActivate (d : Device)
    (* device->Activate() *)
| DeviceActivateFor (d : Device) (applet_resource_user_id : Z)
    (* device->Activate(applet_resource_user_id) *)
| VibrationDeviceActivate (handle : VibrationDeviceHandle)
    (* resource_manager->GetVibrationDevice(handle)->Activate() *)
| SendVibrationValue (applet_resource_user_id : Z)
    (handle : VibrationDeviceHandle) (value : VibrationValue).
    (* GetResourceManager()->SendVibrationValue(aruid, handle, value) *)

(** A call that was made, with the answer it got. *)
Inductive Event : Type :=
| EvIsDeviceManaged (answer : bool)
| EvDelegate (c : DelegateCall) (answer : Result).

(** ** Handlers as programs *)

Inductive Prog (R : Type) : Type :=
| Ret (r : R)
| OutOfBounds
    (* an array or span read or written outside its bounds *)
| IsDeviceManaged (k : bool -> Prog R)
    (* firmware_settings->IsDeviceManaged() *)
| Delegate (c : DelegateCall) (k : Result -> Prog R).

Arguments Ret {R} r.
Arguments OutOfBounds {R}.
Arguments IsDeviceManaged {R} k.
Arguments Delegate {R} c k.

Fixpoint bind {A B : Type} (p : Prog A) (f : A -> Prog B) : Prog B :=
  match p with
  | Ret a => f a
  | OutOfBounds => OutOfBounds
  | IsDeviceManaged k => IsDeviceManaged (fun b => bind (k b) f)
  | Delegate c k => Delegate c (fun r => bind (k r) f)
  end.

Local Notation "x <- p ;; q" := (bind p (fun x => q))
  (at level 100, p at next level, right associativity).

Definition call (c : DelegateCall) : Prog Result := Delegate c Ret.

Definition ask_managed : Prog bool := IsDeviceManaged Ret.

(** Any implementation of the collaborators, over a state [W] of its own. *)
Record Collaborators (W : Type) : Type := MkCollaborators {
  is_device_managed : W -> bool * W;
  delegate : DelegateCall -> W -> Result * W
}.

Arguments is_device_managed {W} _ _.
Arguments delegate {W} _ _ _.

(** Running a handler: the value returned ([None] after an out-of-bounds
    access), the collaborators' final state, and the calls made. *)
Fixpoint run {W R : Type} (env : Collaborators W) (p : Prog R) (w : W)
  : option R * W * list Event :=
  match p with
  | Ret r => (Some r, w, [])
  | OutOfBounds => (None, w, [])
  | IsDeviceManaged k =>
      let '(b, w1) := is_device_managed env w in
      let '(o, w2, tr) := run env (k b) w1 in
      (o, w2, EvIsDeviceManaged b :: tr)
  | Delegate c k =>
      let '(r, w1) := delegate env c w in
      let '(o, w2, tr) := run env (k r) w1 in
      (o, w2, EvDelegate c r :: tr)
  end.

(** ** IActiveVibrationDeviceList::ActivateVibrationDeviceImpl *)

(** The body runs under [std::scoped_lock lock{mutex}], so a call is one
    step on the list: it takes the list as it is and returns the result code
    with the list it leaves. *)
Definition ActivateVibrationDeviceImpl (handle : VibrationDeviceHandle)
    (self : IActiveVibrationDeviceList)
  : Prog (Result * IActiveVibrationDeviceList) :=
  let is_valid := IsVibrationHandleValid handle in
  if IsError is_valid then Ret (is_valid, self)
  else
    match scan_from handle (vibration_device_list self) 0 (list_size self) with
    | None => OutOfBounds
    | Some true => Ret (ResultSuccess, self)
    | Some false =>
        if Nat.eqb (list_size self) capacity then
          Ret (ResultVibrationDeviceIndexOutOfRange, self)
        else
          result <- call (VibrationDeviceActivate handle) ;;
          if IsError result then Ret (result, self)
          else if Nat.ltb (list_size self) (length (vibration_device_list self))
          then
            Ret (ResultSuccess,
                 MkList (S (list_size self))
                        (<[list_size self := handle]> (vibration_device_list self)))
          else OutOfBounds
    end.

(** A client activating the handles of [hs] one after the other; the result
    codes come back in the same order. *)
Fixpoint activate_each (hs : list VibrationDeviceHandle)
    (self : IActiveVibrationDeviceList)
  : Prog (list Result * IActiveVibrationDeviceList) :=
  match hs with
  | [] => Ret ([], self)
  | h :: rest =>
      p <- ActivateVibrationDeviceImpl h self ;;
      q <- activate_each rest (snd p) ;;
      Ret (fst p :: fst q, snd q)
  end.

(** ** IHidServer: handlers that activate a device *)

Definition ActivateDebugPad (applet_resource_user_id : Z) : Prog Response :=
  let result := ResultSuccess in
  managed <- ask_managed ;;
  result <- (if negb managed then call (DeviceActivate DebugPad)
             else Ret result) ;;
  result <- (if IsSuccess result
             then call (DeviceActivateFor DebugPad applet_resource_user_id)
             else Ret result) ;;
  Ret (respond result).

Definition ActivateTouchScreen (applet_resource_user_id : Z) : Prog Response :=
  let result := ResultSuccess in
  managed <- ask_managed ;;
  result <- (if negb managed then call (DeviceActivate TouchScreen)
             else Ret result) ;;
  result <- (if IsSuccess result
             then call (DeviceActivateFor TouchScreen applet_resource_user_id)
             else Ret result) ;;
  Ret (respond result).

Definition ActivateMouse (applet_resource_user_id : Z) : Prog Response :=
  let result := ResultSuccess in
  managed <- ask_managed ;;
  result <- (if negb managed then call (DeviceActivate Mouse)
             else Ret result) ;;
  result <- (if IsSuccess result
             then call (DeviceActivateFor Mouse applet_resource_user_id)
             else Ret result) ;;
  Ret (respond result).

Definition ActivateKeyboard (applet_resource_user_id : Z) : Prog Response :=
  let result := ResultSuccess in
  managed <- ask_managed ;;
  result <- (if negb managed then call (DeviceActivate Keyboard)
             else Ret result) ;;
  result <- (if IsSuccess result
             then call (DeviceActivateFor Keyboard applet_resource_user_id)
             else Ret result) ;;
  Ret (respond result).

(** [basic_gesture_id] is decoded and logged only. *)
Definition ActivateGesture (basic_gesture_id applet_resource_user_id : Z)
  : Prog Response :=
  let result := ResultSuccess in
  managed <- ask_managed ;;
  result <- (if negb managed then call (DeviceActivate Gesture)
             else Ret result) ;;
  result <- (if IsSuccess result
             then call (DeviceActivateFor Gesture applet_resource_user_id)
             else Ret result) ;;
  Ret (respond result).

Definition ActivateConsoleSixAxisSensor (applet_resource_user_id : Z)
  : Prog Response :=
  let result := ResultSuccess in
  managed <- ask_managed ;;
  result <- (if negb managed then call (DeviceActivate ConsoleSixAxis)
             else Ret result) ;;
  result <- (if IsSuccess result
             then call (DeviceActivateFor ConsoleSixAxis applet_resource_user_id)
             else Ret result) ;;
  Ret (respond result).

(** The answer of the second [Activate] is dropped and the handler pushes
    [ResultSuccess]. *)
Definition ActivateSevenSixAxisSensor (applet_resource_user_id : Z)
  : Prog Response :=
  let result := ResultSuccess in
  managed <- ask_managed ;;
  result <- (if negb managed then call (DeviceActivate SevenSixAxis)
             else Ret result) ;;
  _ <- (if IsSuccess result
        then call (DeviceActivateFor SevenSixAxis applet_resource_user_id)
        else Ret result) ;;
  Ret (respond ResultSuccess).

(** ** IHidServer: stubbed handlers *)

Definition SendKeyboardLockKeyEvent (flags : Z) : Prog Response :=
  Ret (respond ResultSuccess).

Definition ActivateXpad (basic_xpad_id applet_resource_user_id : Z)
  : Prog Response :=
  Ret (respond ResultSuccess).

Definition DeactivateNpad (applet_resource_user_id : Z) : Prog Response :=
  Ret (respond ResultSuccess).

Definition SetNpadCommunicationMode
    (applet_resource_user_id communication_mode : Z) : Prog Response :=
  Ret (respond ResultSuccess).

(** ** IHidServer::GetXpadIds *)

Definition GetXpadIds : Prog Response :=
  let basic_xpad_id := [0; 1; 2; 3] in
  Ret (MkResponse ResultSuccess [Z.of_nat (length basic_xpad_id)] basic_xpad_id).

(** ** IHidServer::SendVibrationValues *)

(** The loop [for (i = 0; i < handle_count; i++)], with [n] iterations left;
    [result] is the local of the same name. *)
Fixpoint send_from (applet_resource_user_id : Z)
    (vibration_device_handles : list VibrationDeviceHandle)
    (vibration_values : list VibrationValue)
    (i n : nat) (result : Result) : Prog Result :=
  match n with
  | O => Ret result
  | S n' =>
      result <-
        (if IsSuccess result then
           match vibration_device_handles !! i, vibration_values !! i with
           | Some h, Some v =>
               call (SendVibrationValue applet_resource_user_id h v)
           | _, _ => OutOfBounds
           end
         else Ret result) ;;
      send_from applet_resource_user_id vibration_device_handles
                vibration_values (S i) n' result
  end.

Definition SendVibrationValues (applet_resource_user_id : Z)
    (vibration_device_handles : list VibrationDeviceHandle)
    (vibration_values : list VibrationValue) : Prog Response :=
  let handle_count := length vibration_device_handles in
  let vibration_count := length vibration_values in
  let result := ResultSuccess in
  let result :=
    if negb (Nat.eqb handle_count vibration_count)
    then ResultVibrationArraySizeMismatch else result in
  result <- send_from applet_resource_user_id vibration_device_handles
                      vibration_values 0 handle_count result ;;
  Ret (respond result).

(** ** Reading a trace *)

(** Call [c] was made. *)
Definition called (c : DelegateCall) (tr : list Event) : Prop :=
  exists r, In (EvDelegate c r) tr.

(** The answers of the delegate calls, in the order of the calls. *)
Fixpoint delegate_answers (tr : list Event) : list Result :=
  match tr with
  | [] => []
  | EvIsDeviceManaged _ :: rest => delegate_answers rest
  | EvDelegate _ r :: rest => r :: delegate_answers rest
  end.

(** The delegate calls, without their answers. *)
Fixpoint delegate_calls (tr : list Event) : list DelegateCall :=
  match tr with
  | [] => []
  | EvIsDeviceManaged _ :: rest => delegate_calls rest
  | EvDelegate c _ :: rest => c :: delegate_calls rest
  end.

(** The first error among [rs], [ResultSuccess] when there is none. *)
Fixpoint first_failing (rs : list Result) : Result :=
  match rs with
  | [] => ResultSuccess
  | r :: rest => if IsError r then r else first_failing rest
  end.

(** ** What the specification says of SendVibrationValues *)

(** Forward the pairs in order to the delegate, stop after the first error
    and return it; return success when there is none. *)
Fixpoint forward_until_error {W : Type} (env : Collaborators W)
    (applet_resource_user_id : Z)
    (pairs : list (VibrationDeviceHandle * VibrationValue)) (w : W)
  : Result * W * list Event :=
  match pairs with
  | [] => (ResultSuccess, w, [])
  | (h, v) :: rest =>
      let c := SendVibrationValue applet_resource_user_id h v in
      let '(r, w1) := delegate env c w in
      if IsError r then (r, w1, [EvDelegate c r])
      else
        let '(r', w2, tr) :=
          forward_until_error env applet_resource_user_id rest w1 in
        (r', w2, EvDelegate c r :: tr)
  end.

(** ** Collaborators used in the examples *)

(** Collaborators that always give the same answers; their state counts the
    calls received. *)
Definition fixed_collaborators (managed : bool)
    (answer : DelegateCall -> Result) : Collaborators nat :=
  MkCollaborators nat
    (fun w => (managed, S w))
    (fun c w => (answer c, S w)).

End Model.

Arguments Ret {VibrationValue R} r.
Arguments OutOfBounds {VibrationValue R}.
Arguments IsDeviceManaged {VibrationValue R} k.
Arguments Delegate {VibrationValue R} c k.
Arguments DeviceActivate {VibrationValue} d.
Arguments DeviceActivateFor {VibrationValue} d applet_resource_user_id.
Arguments VibrationDeviceActivate {VibrationValue} handle.
Arguments SendVibrationValue {VibrationValue} _ _ _.
Arguments EvIsDeviceManaged {VibrationValue} answer.
Arguments EvDelegate {VibrationValue} c answer.
Arguments bind {VibrationValue A B} p f.
Arguments call {VibrationValue} c.
Arguments ask_managed {VibrationValue}.
Arguments MkCollaborators {VibrationValue W} _ _.
Arguments is_device_managed {VibrationValue W} _ _.
Arguments delegate {VibrationValue W} _ _ _.
Arguments run {VibrationValue W R} env p w.
Arguments ActivateVibrationDeviceImpl {VibrationValue} _ _ handle self.
Arguments activate_each {VibrationValue} _ _ hs self.
Arguments ActivateDebugPad {VibrationValue} _.
Arguments ActivateTouchScreen {VibrationValue} _.
Arguments ActivateMouse {VibrationValue} _.
Arguments ActivateKeyboard {VibrationValue} _.
Arguments ActivateGesture {VibrationValue} _ _.
Arguments ActivateConsoleSixAxisSensor {VibrationValue} _.
Arguments ActivateSevenSixAxisSensor {VibrationValue} _.
Arguments SendKeyboardLockKeyEvent {VibrationValue} _.
Arguments ActivateXpad {VibrationValue} _ _.
Arguments DeactivateNpad {VibrationValue} _.
Arguments SetNpadCommunicationMode {VibrationValue} _ _.
Arguments GetXpadIds {VibrationValue}.
Arguments send_from {VibrationValue} _ _ _ _ _ _.
Arguments SendVibrationValues {VibrationValue} _ _ _ _.
Arguments called {VibrationValue} c tr.
Arguments delegate_answers {VibrationValue} tr.
Arguments delegate_calls {VibrationValue} tr.
Arguments forward_until_error {VibrationValue W} env _ pairs w.
Arguments fixed_collaborators {VibrationValue} managed answer.

(** ** Statements shared by several handlers *)

(** The pattern of the handlers that activate a device [d]: the firmware
    settings are asked first; [d->Activate()] is called exactly when the
    answer is [false]; [d->Activate(aruid)] is called exactly when the first
    step was skipped or succeeded; each call is made at most once, in that
    order; the response carries the first error among the answers, or
    success. *)
Definition managed_mode_skip {VibrationValue : Type} (d : Device)
    (handler : Z -> Prog VibrationValue Response) : Prop :=
  forall (W : Type) (env : Collaborators VibrationValue W) (aruid : Z) (w : W),
  exists managed resp w' tr,
    run env (handler aruid) w
      = (Some resp, w', EvIsDeviceManaged managed :: tr) /\
    managed = fst (is_device_managed env w) /\
    (called (DeviceActivate d) tr <-> managed = false) /\
    (called (DeviceActivateFor d aruid) tr <->
       managed = true \/
       exists r, In (EvDelegate (DeviceActivate d) r) tr /\
                 IsSuccess r = true) /\
    sublist (delegate_calls tr) [DeviceActivate d; DeviceActivateFor d aruid] /\
    length (delegate_calls tr) = length tr /\
    resp = respond (first_failing (delegate_answers tr)).

(** The calls that forward [pairs], in order. *)
Definition vibration_calls {VibrationValue : Type}
    (applet_resource_user_id : Z)
    (pairs : list (VibrationDeviceHandle * VibrationValue))
  : list (DelegateCall VibrationValue) :=
  map (fun p => SendVibrationValue applet_resource_user_id (fst p) (snd p))
      pairs.

(** ** Sample parameters for the examples *)

(** A validator that accepts the handles whose [npad_id] and [device_index]
    fit a byte. *)
Definition sample_validator (handle : VibrationDeviceHandle) : Result :=
  if (0 <=? npad_id handle) && (npad_id handle <? 256) &&
     (0 <=? device_index handle) && (device_index handle <? 256)
  then ResultSuccess else MkResult 1.

Definition sample_index_out_of_range : Result := MkResult 63690.

Definition sample_size_mismatch : Result := MkResult 67274.

(** [n] handles that differ in their [npad_id]. *)
Definition sample_handles (n : nat) : list VibrationDeviceHandle :=
  map (fun i => MkHandle 3 (Z.of_nat i) 0 0) (seq 0 n).

(** A delegate that refuses every call with code 1. *)
Definition refusing : Collaborators unit nat :=
  fixed_collaborators false (fun _ => MkResult 1).

(** A full list holding the sample handles. *)
Definition full_list : IActiveVibrationDeviceList :=
  MkList capacity (sample_handles capacity).

(** A list holding one handle. *)
Definition single_list : IActiveVibrationDeviceList :=
  MkList 1 (<[0%nat := MkHandle 3 7 0 0]> (replicate capacity empty_handle)).

(** A delegate that accepts every call. *)
Definition accepting : Collaborators unit nat :=
  fixed_collaborators false (fun _ => ResultSuccess).

(** * Further handlers *)

(** ** IActiveVibrationDeviceList::ActivateVibrationDevice *)

(** The handler of command 0: it pops the handle, calls
    [ActivateVibrationDeviceImpl] and pushes the result. *)
Definition ActivateVibrationDevice {VibrationValue : Type}
    (IsVibrationHandleValid : VibrationDeviceHandle -> Result)
    (ResultVibrationDeviceIndexOutOfRange : Result)
    (vibration_device_handle : VibrationDeviceHandle)
    (self : IActiveVibrationDeviceList)
  : Prog VibrationValue (Response * IActiveVibrationDeviceList) :=
  bind (ActivateVibrationDeviceImpl IsVibrationHandleValid
          ResultVibrationDeviceIndexOutOfRange vibration_device_handle self)
       (fun p => Ret (respond (fst p), snd p)).

(** A session serving the requests [hs] in order. *)
Fixpoint serve_requests {VibrationValue : Type}
    (IsVibrationHandleValid : VibrationDeviceHandle -> Result)
    (ResultVibrationDeviceIndexOutOfRange : Result)
    (hs : list VibrationDeviceHandle) (self : IActiveVibrationDeviceList)
  : Prog VibrationValue (list Response * IActiveVibrationDeviceList) :=
  match hs with
  | [] => Ret ([], self)
  | h :: rest =>
      bind (ActivateVibrationDevice IsVibrationHandleValid
              ResultVibrationDeviceIndexOutOfRange h self) (fun p =>
      bind (serve_requests IsVibrationHandleValid
              ResultVibrationDeviceIndexOutOfRange rest (snd p)) (fun q =>
      Ret (fst p :: fst q, snd q)))
  end.

(** The handles whose device accepted [Activate], in the order of the
    calls. *)
Fixpoint activated {VibrationValue : Type}
    (tr : list (Event VibrationValue)) : list VibrationDeviceHandle :=
  match tr with
  | [] => []
  | EvDelegate (VibrationDeviceActivate h) r :: rest =>
      if IsSuccess r then h :: activated rest else activated rest
  | _ :: rest => activated rest
  end.

(** What a request for [h] is answered on a list that is full. *)
Definition full_list_answer
    (IsVibrationHandleValid : VibrationDeviceHandle -> Result)
    (ResultVibrationDeviceIndexOutOfRange : Result)
    (self : IActiveVibrationDeviceList) (h : VibrationDeviceHandle) : Response :=
  respond (if IsError (IsVibrationHandleValid h) then IsVibrationHandleValid h
           else if is_active h self then ResultSuccess
           else ResultVibrationDeviceIndexOutOfRange).

(** The five ways a call on a well-formed list can end: the result, the list
    left, the collaborators' state and the calls made. *)
Inductive activation_outcome {VibrationValue W : Type}
    (IsVibrationHandleValid : VibrationDeviceHandle -> Result)
    (ResultVibrationDeviceIndexOutOfRange : Result)
    (env : Collaborators VibrationValue W) (h : VibrationDeviceHandle)
    (self : IActiveVibrationDeviceList) (w : W)
  : Result -> IActiveVibrationDeviceList -> W -> list (Event VibrationValue)
    -> Prop :=
| rejected :
    IsError (IsVibrationHandleValid h) = true ->
    activation_outcome IsVibrationHandleValid
      ResultVibrationDeviceIndexOutOfRange env h self w (IsVibrationHandleValid h) self w []
| found :
    IsError (IsVibrationHandleValid h) = false ->
    is_active h self = true ->
    activation_outcome IsVibrationHandleValid
      ResultVibrationDeviceIndexOutOfRange env h self w ResultSuccess self w []
| no_room :
    IsError (IsVibrationHandleValid h) = false ->
    is_active h self = false ->
    list_size self = capacity ->
    activation_outcome IsVibrationHandleValid
      ResultVibrationDeviceIndexOutOfRange env h self w ResultVibrationDeviceIndexOutOfRange self w []
| refused r w1 :
    IsError (IsVibrationHandleValid h) = false ->
    is_active h self = false ->
    (list_size self < capacity)%nat ->
    delegate env (VibrationDeviceActivate h) w = (r, w1) ->
    IsError r = true ->
    activation_outcome IsVibrationHandleValid
      ResultVibrationDeviceIndexOutOfRange env h self w r self w1 [EvDelegate (VibrationDeviceActivate h) r]
| inserted r w1 :
    IsError (IsVibrationHandleValid h) = false ->
    is_active h self = false ->
    (list_size self < capacity)%nat ->
    delegate env (VibrationDeviceActivate h) w = (r, w1) ->
    IsError r = false ->
    activation_outcome IsVibrationHandleValid
      ResultVibrationDeviceIndexOutOfRange env h self w ResultSuccess
      (MkList (S (list_size self))
              (<[list_size self := h]> (vibration_device_list self)))
      w1 [EvDelegate (VibrationDeviceActivate h) r].

(** ** IHidServer::SendVibrationValue *)

(** The call is the whole expression
    [GetResourceManager()->SendVibrationValue(...)], as in
    SendVibrationValues; its answer is dropped. *)
Definition IHidServer_SendVibrationValue {VibrationValue : Type}
    (vibration_device_handle : VibrationDeviceHandle)
    (vibration_value : VibrationValue) (applet_resource_user_id : Z)
  : Prog VibrationValue Response :=
  bind (call (SendVibrationValue applet_resource_user_id
                vibration_device_handle vibration_value)) (fun _ =>
  Ret (respond ResultSuccess)).

(** * Handlers that look a vibration device up *)

(** These handlers read answers that are not result codes (a flag, a device
    pointer, a value), so their calls carry the type of their answer.  Each
    use of [GetResourceManager()] is the call [resource_manager->Initialize()]
    followed by the call on the resource manager. *)

Section Resources.

(** Types declared outside this file and only passed on. *)
Variable VibrationValue : Type.
Variable VibrationGcErmCommand : Type.
Variable SixAxisSensorHandle : Type.
Variable SixAxisSensorFusionParameters : Type.

(** A device pointer that is not null; [None] stands for [nullptr]. *)
Variable DevicePointer : Type.

Inductive ResourceCall : Type :=
| RmInitialize
    (* resource_manager->Initialize() *)
| RmIsVibrationAruidActive (applet_resource_user_id : Z) (has_active_aruid : bool)
    (* IsVibrationAruidActive(aruid, has_active_aruid), the flag by reference *)
| RmGetNSVibrationDevice (handle : VibrationDeviceHandle)
| RmGetGcVibrationDevice (handle : VibrationDeviceHandle)
| RmGetN64VibrationDevice (handle : VibrationDeviceHandle)
| RmGetVibrationDevice (handle : VibrationDeviceHandle)
| DevGetActualVibrationValue (device : DevicePointer) (value : VibrationValue)
    (* device->GetActualVibrationValue(vibration_value), the value by reference *)
| DevSendVibrationGcErmCommand (device : DevicePointer)
    (command : VibrationGcErmCommand)
| DevGetActualVibrationGcErmCommand (device : DevicePointer)
    (command : VibrationGcErmCommand)
    (* gc_device->GetActualVibrationGcErmCommand(gc_erm_command), by reference *)
| DevSendValueInBool (device : DevicePointer) (is_vibrating : bool)
| DevIsVibrationMounted (device : DevicePointer)
| SixAxisSetSixAxisFusionParameters (handle : SixAxisSensorHandle)
    (parameters : SixAxisSensorFusionParameters)
| SixAxisSetSixAxisFusionEnabled (handle : SixAxisSensorHandle)
    (is_enabled : bool).

(** What a call gives back: its return value and, for an argument passed by
    reference, the value the argument holds afterwards. *)
Definition Answer (c : ResourceCall) : Type :=
  match c with
  | RmInitialize => unit
  | RmIsVibrationAruidActive _ _ => (Result * bool)%type
  | RmGetNSVibrationDevice _ => option DevicePointer
  | RmGetGcVibrationDevice _ => option DevicePointer
  | RmGetN64VibrationDevice _ => option DevicePointer
  | RmGetVibrationDevice _ => option DevicePointer
  | DevGetActualVibrationValue _ _ => (Result * VibrationValue)%type
  | DevSendVibrationGcErmCommand _ _ => Result
  | DevGetActualVibrationGcErmCommand _ _ =>
      (Result * VibrationGcErmCommand)%type
  | DevSendValueInBool _ _ => Result
  | DevIsVibrationMounted _ => bool
  | SixAxisSetSixAxisFusionParameters _ _ => Result
  | SixAxisSetSixAxisFusionEnabled _ _ => Result
  end.

Inductive Handler (R : Type) : Type :=
| Done (r : R)
| Ask (c : ResourceCall) (k : Answer c -> Handler R).

Arguments Done {R} r.
Arguments Ask {R} c k.

Fixpoint then_do {A B : Type} (p : Handler A) (f : A -> Handler B)
  : Handler B :=
  match p with
  | Done a => f a
  | Ask c k => Ask c (fun a => then_do (k a) f)
  end.

Local Notation "x <- p ;; q" := (then_do p (fun x => q))
  (at level 100, p at next level, right associativity).
Local Notation "'get' pat <- p ;; q" := (then_do p (fun pat => q))
  (at level 100, pat pattern, p at next level, right associativity).

Definition ask (c : ResourceCall) : Handler (Answer c) := Ask c Done.

(** Any resource manager with its devices, over a state [W] of its own. *)
Definition ResourceManager (W : Type) : Type :=
  forall c : ResourceCall, W -> Answer c * W.

(** Running a handler: the value it leaves, the final state of the resource
    manager, and the calls made, in order. *)
Fixpoint exec {W R : Type} (rm : ResourceManager W) (p : Handler R) (w : W)
  : R * W * list ResourceCall :=
  match p with
  | Done r => (r, w, [])
  | Ask c k =>
      let '(a, w1) := rm c w in
      let '(r, w2, calls) := exec rm (k a) w1 in
      (r, w2, c :: calls)
  end.

(** [IHidServer::GetResourceManager]. *)
Definition GetResourceManager : Handler unit := ask RmInitialize.

(** Parameters: the validator of [hid_core/hid_util.h] and the constants
    the handlers name. *)
Variable IsVibrationHandleValid : VibrationDeviceHandle -> Result.
Variable DEFAULT_VIBRATION_VALUE : VibrationValue.
Variable VibrationGcErmCommand_Stop : VibrationGcErmCommand.

(** The values of [Core::HID::VibrationValue vibration_value{}] and
    [Core::HID::VibrationGcErmCommand gc_erm_command{}]. *)
Variable value_initialized_VibrationValue : VibrationValue.
Variable value_initialized_VibrationGcErmCommand : VibrationGcErmCommand.

(** The fusion parameters [{.parameter1 = 0.03f, .parameter2 = 0.4f}]. *)
Variable reset_fusion_parameters : SixAxisSensorFusionParameters.

(** ** IHidServer::GetActualVibrationValue *)

(** The pair returned is what [rb.Push] and [rb.PushRaw] receive. *)
Definition GetActualVibrationValue
    (vibration_device_handle : VibrationDeviceHandle)
    (applet_resource_user_id : Z) : Handler (Result * VibrationValue) :=
  let has_active_aruid := false in
  let device : option DevicePointer := None in
  let vibration_value := value_initialized_VibrationValue in
  _ <- GetResourceManager ;;
  get (result, has_active_aruid) <-
    ask (RmIsVibrationAruidActive applet_resource_user_id has_active_aruid) ;;
  let result :=
    if IsSuccess result && has_active_aruid
    then IsVibrationHandleValid vibration_device_handle else result in
  device <-
    (if IsSuccess result && has_active_aruid
     then (_ <- GetResourceManager ;;
           ask (RmGetNSVibrationDevice vibration_device_handle))
     else Done device) ;;
  get (result, vibration_value) <-
    match device with
    | Some d => ask (DevGetActualVibrationValue d vibration_value)
    | None => Done (result, vibration_value)
    end ;;
  let vibration_value :=
    if IsError result then DEFAULT_VIBRATION_VALUE else vibration_value in
  Done (ResultSuccess, vibration_value).

(** ** IHidServer::SendVibrationGcErmCommand *)

Definition SendVibrationGcErmCommand
    (vibration_device_handle : VibrationDeviceHandle)
    (applet_resource_user_id : Z) (gc_erm_command : VibrationGcErmCommand)
  : Handler Result :=
  let has_active_aruid := false in
  let gc_device : option DevicePointer := None in
  _ <- GetResourceManager ;;
  get (result, has_active_aruid) <-
    ask (RmIsVibrationAruidActive applet_resource_user_id has_active_aruid) ;;
  let result :=
    if IsSuccess result && has_active_aruid
    then IsVibrationHandleValid vibration_device_handle else result in
  gc_device <-
    (if IsSuccess result && has_active_aruid
     then (_ <- GetResourceManager ;;
           ask (RmGetGcVibrationDevice vibration_device_handle))
     else Done gc_device) ;;
  result <-
    match gc_device with
    | Some d => ask (DevSendVibrationGcErmCommand d gc_erm_command)
    | None => Done result
    end ;;
  Done result.

(** ** IHidServer::GetActualVibrationGcErmCommand *)

Definition GetActualVibrationGcErmCommand
    (vibration_device_handle : VibrationDeviceHandle)
    (applet_resource_user_id : Z) : Handler (Result * VibrationGcErmCommand) :=
  let has_active_aruid := false in
  let gc_device : option DevicePointer := None in
  let gc_erm_command := value_initialized_VibrationGcErmCommand in
  _ <- GetResourceManager ;;
  get (result, has_active_aruid) <-
    ask (RmIsVibrationAruidActive applet_resource_user_id has_active_aruid) ;;
  let result :=
    if IsSuccess result && has_active_aruid
    then IsVibrationHandleValid vibration_device_handle else result in
  gc_device <-
    (if IsSuccess result && has_active_aruid
     then (_ <- GetResourceManager ;;
           ask (RmGetGcVibrationDevice vibration_device_handle))
     else Done gc_device) ;;
  get (result, gc_erm_command) <-
    match gc_device with
    | Some d => ask (DevGetActualVibrationGcErmCommand d gc_erm_command)
    | None => Done (result, gc_erm_command)
    end ;;
  let gc_erm_command :=
    if IsError result then VibrationGcErmCommand_Stop else gc_erm_command in
  Done (ResultSuccess, gc_erm_command).

(** ** IHidServer::IsVibrationDeviceMounted *)

Definition IsVibrationDeviceMounted
    (vibration_device_handle : VibrationDeviceHandle)
    (applet_resource_user_id : Z) : Handler (Result * bool) :=
  let is_mounted := false in
  let device : option DevicePointer := None in
  let result := IsVibrationHandleValid vibration_device_handle in
  device <-
    (if IsSuccess result
     then (_ <- GetResourceManager ;;
           ask (RmGetVibrationDevice vibration_device_handle))
     else Done device) ;;
  is_mounted <-
    match device with
    | Some d => ask (DevIsVibrationMounted d)
    | None => Done is_mounted
    end ;;
  Done (result, is_mounted).

(** ** IHidServer::SendVibrationValueInBool *)

Definition SendVibrationValueInBool
    (vibration_device_handle : VibrationDeviceHandle)
    (applet_resource_user_id : Z) (is_vibrating : bool) : Handler Result :=
  let has_active_aruid := false in
  let n64_device : option DevicePointer := None in
  _ <- GetResourceManager ;;
  get (result, has_active_aruid) <-
    ask (RmIsVibrationAruidActive applet_resource_user_id has_active_aruid) ;;
  let result :=
    if IsSuccess result && has_active_aruid
    then IsVibrationHandleValid vibration_device_handle else result in
  n64_device <-
    (if IsSuccess result && has_active_aruid
     then (_ <- GetResourceManager ;;
           ask (RmGetN64VibrationDevice vibration_device_handle))
     else Done n64_device) ;;
  result <-
    match n64_device with
    | Some d => ask (DevSendValueInBool d is_vibrating)
    | None => Done result
    end ;;
  Done result.

(** ** IHidServer::ResetSixAxisSensorFusionParameters *)

Definition ResetSixAxisSensorFusionParameters
    (sixaxis_handle : SixAxisSensorHandle) (applet_resource_user_id : Z)
  : Handler Result :=
  let fusion_parameters := reset_fusion_parameters in
  _ <- GetResourceManager ;;
  result1 <-
    ask (SixAxisSetSixAxisFusionParameters sixaxis_handle fusion_parameters) ;;
  result2 <- ask (SixAxisSetSixAxisFusionEnabled sixaxis_handle true) ;;
  if IsError result1 then Done result1 else Done result2.

End Resources.

Arguments RmInitialize
  {VibrationValue VibrationGcErmCommand SixAxisSensorHandle SixAxisSensorFusionParameters DevicePointer}.
Arguments RmIsVibrationAruidActive
  {VibrationValue VibrationGcErmCommand SixAxisSensorHandle SixAxisSensorFusionParameters DevicePointer} _ _.
Arguments RmGetNSVibrationDevice
  {VibrationValue VibrationGcErmCommand SixAxisSensorHandle SixAxisSensorFusionParameters DevicePointer} _.
Arguments RmGetGcVibrationDevice
  {VibrationValue VibrationGcErmCommand SixAxisSensorHandle SixAxisSensorFusionParameters DevicePointer} _.
Arguments RmGetN64VibrationDevice
  {VibrationValue VibrationGcErmCommand SixAxisSensorHandle SixAxisSensorFusionParameters DevicePointer} _.
Arguments RmGetVibrationDevice
  {VibrationValue VibrationGcErmCommand SixAxisSensorHandle SixAxisSensorFusionParameters DevicePointer} _.
Arguments DevGetActualVibrationValue
  {VibrationValue VibrationGcErmCommand SixAxisSensorHandle SixAxisSensorFusionParameters DevicePointer} _ _.
Arguments DevSendVibrationGcErmCommand
  {VibrationValue VibrationGcErmCommand SixAxisSensorHandle SixAxisSensorFusionParameters DevicePointer} _ _.
Arguments DevGetActualVibrationGcErmCommand
  {VibrationValue VibrationGcErmCommand SixAxisSensorHandle SixAxisSensorFusionParameters DevicePointer} _ _.
Arguments DevSendValueInBool
  {VibrationValue VibrationGcErmCommand SixAxisSensorHandle SixAxisSensorFusionParameters DevicePointer} _ _.
Arguments DevIsVibrationMounted
  {VibrationValue VibrationGcErmCommand SixAxisSensorHandle SixAxisSensorFusionParameters DevicePointer} _.
Arguments SixAxisSetSixAxisFusionParameters
  {VibrationValue VibrationGcErmCommand SixAxisSensorHandle SixAxisSensorFusionParameters DevicePointer} _ _.
Arguments SixAxisSetSixAxisFusionEnabled
  {VibrationValue VibrationGcErmCommand SixAxisSensorHandle SixAxisSensorFusionParameters DevicePointer} _ _.
Arguments Answer
  {VibrationValue VibrationGcErmCommand SixAxisSensorHandle SixAxisSensorFusionParameters DevicePointer} c.
Arguments Done
  {VibrationValue VibrationGcErmCommand SixAxisSensorHandle SixAxisSensorFusionParameters DevicePointer} {R} r.
Arguments Ask
  {VibrationValue VibrationGcErmCommand SixAxisSensorHandle SixAxisSensorFusionParameters DevicePointer} {R} c k.
Arguments then_do
  {VibrationValue VibrationGcErmCommand SixAxisSensorHandle SixAxisSensorFusionParameters DevicePointer} {A B} p f.
Arguments ask
  {VibrationValue VibrationGcErmCommand SixAxisSensorHandle SixAxisSensorFusionParameters DevicePointer} c.
Arguments exec
  {VibrationValue VibrationGcErmCommand SixAxisSensorHandle SixAxisSensorFusionParameters DevicePointer} {W R} rm p w.
Arguments GetResourceManager
  {VibrationValue VibrationGcErmCommand SixAxisSensorHandle SixAxisSensorFusionParameters DevicePointer}.
Arguments GetActualVibrationValue
  {VibrationValue VibrationGcErmCommand SixAxisSensorHandle SixAxisSensorFusionParameters DevicePointer} _ _ _ _ _.
Arguments SendVibrationGcErmCommand
  {VibrationValue VibrationGcErmCommand SixAxisSensorHandle SixAxisSensorFusionParameters DevicePointer} _ _ _ _.
Arguments GetActualVibrationGcErmCommand
  {VibrationValue VibrationGcErmCommand SixAxisSensorHandle SixAxisSensorFusionParameters DevicePointer} _ _ _ _ _.
Arguments IsVibrationDeviceMounted
  {VibrationValue VibrationGcErmCommand SixAxisSensorHandle SixAxisSensorFusionParameters DevicePointer} _ _ _.
Arguments SendVibrationValueInBool
  {VibrationValue VibrationGcErmCommand SixAxisSensorHandle SixAxisSensorFusionParameters DevicePointer} _ _ _ _.
Arguments ResetSixAxisSensorFusionParameters
  {VibrationValue VibrationGcErmCommand SixAxisSensorHandle SixAxisSensorFusionParameters DevicePointer} _ _ _.

(** * The command table of IHidServer *)

(** An entry of [static const FunctionInfo functions[]]: the command id, the
    handler ([None] for [nullptr], otherwise the name of the member function)
    and the name the command is registered under. *)
Record FunctionInfo : Type := MkFunctionInfo {
  expected_header : Z;
  handler_callback : option string;
  function_name : string
}.

(** The table built by the constructor of [IHidServer], entry by entry. *)
Definition functions : list FunctionInfo := [
  MkFunctionInfo 0 (Some "CreateAppletResource") "CreateAppletResource";
  MkFunctionInfo 1 (Some "ActivateDebugPad") "ActivateDebugPad";
  MkFunctionInfo 11 (Some "ActivateTouchScreen") "ActivateTouchScreen";
  MkFunctionInfo 21 (Some "ActivateMouse") "ActivateMouse";
  MkFunctionInfo 26 None "ActivateDebugMouse";
  MkFunctionInfo 31 (Some "ActivateKeyboard") "ActivateKeyboard";
  MkFunctionInfo 32 (Some "SendKeyboardLockKeyEvent") "SendKeyboardLockKeyEvent";
  MkFunctionInfo 40 (Some "AcquireXpadIdEventHandle") "AcquireXpadIdEventHandle";
  MkFunctionInfo 41 (Some "ReleaseXpadIdEventHandle") "ReleaseXpadIdEventHandle";
  MkFunctionInfo 51 (Some "ActivateXpad") "ActivateXpad";
  MkFunctionInfo 55 (Some "GetXpadIds") "GetXpadIds";
  MkFunctionInfo 56 (Some "ActivateJoyXpad") "ActivateJoyXpad";
  MkFunctionInfo 58 (Some "GetJoyXpadLifoHandle") "GetJoyXpadLifoHandle";
  MkFunctionInfo 59 (Some "GetJoyXpadIds") "GetJoyXpadIds";
  MkFunctionInfo 60 (Some "ActivateSixAxisSensor") "ActivateSixAxisSensor";
  MkFunctionInfo 61 (Some "DeactivateSixAxisSensor") "DeactivateSixAxisSensor";
  MkFunctionInfo 62 (Some "GetSixAxisSensorLifoHandle") "GetSixAxisSensorLifoHandle";
  MkFunctionInfo 63 (Some "ActivateJoySixAxisSensor") "ActivateJoySixAxisSensor";
  MkFunctionInfo 64 (Some "DeactivateJoySixAxisSensor") "DeactivateJoySixAxisSensor";
  MkFunctionInfo 65 (Some "GetJoySixAxisSensorLifoHandle") "GetJoySixAxisSensorLifoHandle";
  MkFunctionInfo 66 (Some "StartSixAxisSensor") "StartSixAxisSensor";
  MkFunctionInfo 67 (Some "StopSixAxisSensor") "StopSixAxisSensor";
  MkFunctionInfo 68 (Some "IsSixAxisSensorFusionEnabled") "IsSixAxisSensorFusionEnabled";
  MkFunctionInfo 69 (Some "EnableSixAxisSensorFusion") "EnableSixAxisSensorFusion";
  MkFunctionInfo 70 (Some "SetSixAxisSensorFusionParameters") "SetSixAxisSensorFusionParameters";
  MkFunctionInfo 71 (Some "GetSixAxisSensorFusionParameters") "GetSixAxisSensorFusionParameters";
  MkFunctionInfo 72 (Some "ResetSixAxisSensorFusionParameters") "ResetSixAxisSensorFusionParameters";
  MkFunctionInfo 73 None "SetAccelerometerParameters";
  MkFunctionInfo 74 None "GetAccelerometerParameters";
  MkFunctionInfo 75 None "ResetAccelerometerParameters";
  MkFunctionInfo 76 None "SetAccelerometerPlayMode";
  MkFunctionInfo 77 None "GetAccelerometerPlayMode";
  MkFunctionInfo 78 None "ResetAccelerometerPlayMode";
  MkFunctionInfo 79 (Some "SetGyroscopeZeroDriftMode") "SetGyroscopeZeroDriftMode";
  MkFunctionInfo 80 (Some "GetGyroscopeZeroDriftMode") "GetGyroscopeZeroDriftMode";
  MkFunctionInfo 81 (Some "ResetGyroscopeZeroDriftMode") "ResetGyroscopeZeroDriftMode";
  MkFunctionInfo 82 (Some "IsSixAxisSensorAtRest") "IsSixAxisSensorAtRest";
  MkFunctionInfo 83 (Some "IsFirmwareUpdateAvailableForSixAxisSensor") "IsFirmwareUpdateAvailableForSixAxisSensor";
  MkFunctionInfo 84 (Some "EnableSixAxisSensorUnalteredPassthrough") "EnableSixAxisSensorUnalteredPassthrough";
  MkFunctionInfo 85 (Some "IsSixAxisSensorUnalteredPassthroughEnabled") "IsSixAxisSensorUnalteredPassthroughEnabled";
  MkFunctionInfo 86 None "StoreSixAxisSensorCalibrationParameter";
  MkFunctionInfo 87 (Some "LoadSixAxisSensorCalibrationParameter") "LoadSixAxisSensorCalibrationParameter";
  MkFunctionInfo 88 (Some "GetSixAxisSensorIcInformation") "GetSixAxisSensorIcInformation";
  MkFunctionInfo 89 (Some "ResetIsSixAxisSensorDeviceNewlyAssigned") "ResetIsSixAxisSensorDeviceNewlyAssigned";
  MkFunctionInfo 91 (Some "ActivateGesture") "ActivateGesture";
  MkFunctionInfo 100 (Some "SetSupportedNpadStyleSet") "SetSupportedNpadStyleSet";
  MkFunctionInfo 101 (Some "GetSupportedNpadStyleSet") "GetSupportedNpadStyleSet";
  MkFunctionInfo 102 (Some "SetSupportedNpadIdType") "SetSupportedNpadIdType";
  MkFunctionInfo 103 (Some "ActivateNpad") "ActivateNpad";
  MkFunctionInfo 104 (Some "DeactivateNpad") "DeactivateNpad";
  MkFunctionInfo 106 (Some "AcquireNpadStyleSetUpdateEventHandle") "AcquireNpadStyleSetUpdateEventHandle";
  MkFunctionInfo 107 (Some "DisconnectNpad") "DisconnectNpad";
  MkFunctionInfo 108 (Some "GetPlayerLedPattern") "GetPlayerLedPattern";
  MkFunctionInfo 109 (Some "ActivateNpadWithRevision") "ActivateNpadWithRevision";
  MkFunctionInfo 120 (Some "SetNpadJoyHoldType") "SetNpadJoyHoldType";
  MkFunctionInfo 121 (Some "GetNpadJoyHoldType") "GetNpadJoyHoldType";
  MkFunctionInfo 122 (Some "SetNpadJoyAssignmentModeSingleByDefault") "SetNpadJoyAssignmentModeSingleByDefault";
  MkFunctionInfo 123 (Some "SetNpadJoyAssignmentModeSingle") "SetNpadJoyAssignmentModeSingle";
  MkFunctionInfo 124 (Some "SetNpadJoyAssignmentModeDual") "SetNpadJoyAssignmentModeDual";
  MkFunctionInfo 125 (Some "MergeSingleJoyAsDualJoy") "MergeSingleJoyAsDualJoy";
  MkFunctionInfo 126 (Some "StartLrAssignmentMode") "StartLrAssignmentMode";
  MkFunctionInfo 127 (Some "StopLrAssignmentMode") "StopLrAssignmentMode";
  MkFunctionInfo 128 (Some "SetNpadHandheldActivationMode") "SetNpadHandheldActivationMode";
  MkFunctionInfo 129 (Some "GetNpadHandheldActivationMode") "GetNpadHandheldActivationMode";
  MkFunctionInfo 130 (Some "SwapNpadAssignment") "SwapNpadAssignment";
  MkFunctionInfo 131 (Some "IsUnintendedHomeButtonInputProtectionEnabled") "IsUnintendedHomeButtonInputProtectionEnabled";
  MkFunctionInfo 132 (Some "EnableUnintendedHomeButtonInputProtection") "EnableUnintendedHomeButtonInputProtection";
  MkFunctionInfo 133 (Some "SetNpadJoyAssignmentModeSingleWithDestination") "SetNpadJoyAssignmentModeSingleWithDestination";
  MkFunctionInfo 134 (Some "SetNpadAnalogStickUseCenterClamp") "SetNpadAnalogStickUseCenterClamp";
  MkFunctionInfo 135 (Some "SetNpadCaptureButtonAssignment") "SetNpadCaptureButtonAssignment";
  MkFunctionInfo 136 (Some "ClearNpadCaptureButtonAssignment") "ClearNpadCaptureButtonAssignment";
  MkFunctionInfo 200 (Some "GetVibrationDeviceInfo") "GetVibrationDeviceInfo";
  MkFunctionInfo 201 (Some "SendVibrationValue") "SendVibrationValue";
  MkFunctionInfo 202 (Some "GetActualVibrationValue") "GetActualVibrationValue";
  MkFunctionInfo 203 (Some "CreateActiveVibrationDeviceList") "CreateActiveVibrationDeviceList";
  MkFunctionInfo 204 (Some "PermitVibration") "PermitVibration";
  MkFunctionInfo 205 (Some "IsVibrationPermitted") "IsVibrationPermitted";
  MkFunctionInfo 206 (Some "SendVibrationValues") "SendVibrationValues";
  MkFunctionInfo 207 (Some "SendVibrationGcErmCommand") "SendVibrationGcErmCommand";
  MkFunctionInfo 208 (Some "GetActualVibrationGcErmCommand") "GetActualVibrationGcErmCommand";
  MkFunctionInfo 209 (Some "BeginPermitVibrationSession") "BeginPermitVibrationSession";
  MkFunctionInfo 210 (Some "EndPermitVibrationSession") "EndPermitVibrationSession";
  MkFunctionInfo 211 (Some "IsVibrationDeviceMounted") "IsVibrationDeviceMounted";
  MkFunctionInfo 212 (Some "SendVibrationValueInBool") "SendVibrationValueInBool";
  MkFunctionInfo 300 (Some "ActivateConsoleSixAxisSensor") "ActivateConsoleSixAxisSensor";
  MkFunctionInfo 301 (Some "StartConsoleSixAxisSensor") "StartConsoleSixAxisSensor";
  MkFunctionInfo 302 (Some "StopConsoleSixAxisSensor") "StopConsoleSixAxisSensor";
  MkFunctionInfo 303 (Some "ActivateSevenSixAxisSensor") "ActivateSevenSixAxisSensor";
  MkFunctionInfo 304 (Some "StartSevenSixAxisSensor") "StartSevenSixAxisSensor";
  MkFunctionInfo 305 (Some "StopSevenSixAxisSensor") "StopSevenSixAxisSensor";
  MkFunctionInfo 306 (Some "InitializeSevenSixAxisSensor") "InitializeSevenSixAxisSensor";
  MkFunctionInfo 307 (Some "FinalizeSevenSixAxisSensor") "FinalizeSevenSixAxisSensor";
  MkFunctionInfo 308 None "SetSevenSixAxisSensorFusionStrength";
  MkFunctionInfo 309 None "GetSevenSixAxisSensorFusionStrength";
  MkFunctionInfo 310 (Some "ResetSevenSixAxisSensorTimestamp") "ResetSevenSixAxisSensorTimestamp";
  MkFunctionInfo 400 (Some "IsUsbFullKeyControllerEnabled") "IsUsbFullKeyControllerEnabled";
  MkFunctionInfo 401 None "EnableUsbFullKeyController";
  MkFunctionInfo 402 None "IsUsbFullKeyControllerConnected";
  MkFunctionInfo 403 None "HasBattery";
  MkFunctionInfo 404 None "HasLeftRightBattery";
  MkFunctionInfo 405 None "GetNpadInterfaceType";
  MkFunctionInfo 406 None "GetNpadLeftRightInterfaceType";
  MkFunctionInfo 407 None "GetNpadOfHighestBatteryLevel";
  MkFunctionInfo 408 None "GetNpadOfHighestBatteryLevelForJoyRight";
  MkFunctionInfo 500 (Some "GetPalmaConnectionHandle") "GetPalmaConnectionHandle";
  MkFunctionInfo 501 (Some "InitializePalma") "InitializePalma";
  MkFunctionInfo 502 (Some "AcquirePalmaOperationCompleteEvent") "AcquirePalmaOperationCompleteEvent";
  MkFunctionInfo 503 (Some "GetPalmaOperationInfo") "GetPalmaOperationInfo";
  MkFunctionInfo 504 (Some "PlayPalmaActivity") "PlayPalmaActivity";
  MkFunctionInfo 505 (Some "SetPalmaFrModeType") "SetPalmaFrModeType";
  MkFunctionInfo 506 (Some "ReadPalmaStep") "ReadPalmaStep";
  MkFunctionInfo 507 (Some "EnablePalmaStep") "EnablePalmaStep";
  MkFunctionInfo 508 (Some "ResetPalmaStep") "ResetPalmaStep";
  MkFunctionInfo 509 (Some "ReadPalmaApplicationSection") "ReadPalmaApplicationSection";
  MkFunctionInfo 510 (Some "WritePalmaApplicationSection") "WritePalmaApplicationSection";
  MkFunctionInfo 511 (Some "ReadPalmaUniqueCode") "ReadPalmaUniqueCode";
  MkFunctionInfo 512 (Some "SetPalmaUniqueCodeInvalid") "SetPalmaUniqueCodeInvalid";
  MkFunctionInfo 513 (Some "WritePalmaActivityEntry") "WritePalmaActivityEntry";
  MkFunctionInfo 514 (Some "WritePalmaRgbLedPatternEntry") "WritePalmaRgbLedPatternEntry";
  MkFunctionInfo 515 (Some "WritePalmaWaveEntry") "WritePalmaWaveEntry";
  MkFunctionInfo 516 (Some "SetPalmaDataBaseIdentificationVersion") "SetPalmaDataBaseIdentificationVersion";
  MkFunctionInfo 517 (Some "GetPalmaDataBaseIdentificationVersion") "GetPalmaDataBaseIdentificationVersion";
  MkFunctionInfo 518 (Some "SuspendPalmaFeature") "SuspendPalmaFeature";
  MkFunctionInfo 519 (Some "GetPalmaOperationResult") "GetPalmaOperationResult";
  MkFunctionInfo 520 (Some "ReadPalmaPlayLog") "ReadPalmaPlayLog";
  MkFunctionInfo 521 (Some "ResetPalmaPlayLog") "ResetPalmaPlayLog";
  MkFunctionInfo 522 (Some "SetIsPalmaAllConnectable") "SetIsPalmaAllConnectable";
  MkFunctionInfo 523 (Some "SetIsPalmaPairedConnectable") "SetIsPalmaPairedConnectable";
  MkFunctionInfo 524 (Some "PairPalma") "PairPalma";
  MkFunctionInfo 525 (Some "SetPalmaBoostMode") "SetPalmaBoostMode";
  MkFunctionInfo 526 (Some "CancelWritePalmaWaveEntry") "CancelWritePalmaWaveEntry";
  MkFunctionInfo 527 (Some "EnablePalmaBoostMode") "EnablePalmaBoostMode";
  MkFunctionInfo 528 (Some "GetPalmaBluetoothAddress") "GetPalmaBluetoothAddress";
  MkFunctionInfo 529 (Some "SetDisallowedPalmaConnection") "SetDisallowedPalmaConnection";
  MkFunctionInfo 1000 (Some "SetNpadCommunicationMode") "SetNpadCommunicationMode";
  MkFunctionInfo 1001 (Some "GetNpadCommunicationMode") "GetNpadCommunicationMode";
  MkFunctionInfo 1002 (Some "SetTouchScreenConfiguration") "SetTouchScreenConfiguration";
  MkFunctionInfo 1003 (Some "IsFirmwareUpdateNeededForNotification") "IsFirmwareUpdateNeededForNotification";
  MkFunctionInfo 1004 (Some "SetTouchScreenResolution") "SetTouchScreenResolution";
  MkFunctionInfo 2000 None "ActivateDigitizer"
]%string.

(** The ids are listed in strictly increasing order. *)
Fixpoint increasing (ids : list Z) : bool :=
  match ids with
  | a :: (b :: _) as rest => (a <? b) && increasing rest
  | _ => true
  end.

(** ** Sample resource manager for the examples *)

(** A resource manager that always gives the same answers: the result and
    flag of IsVibrationAruidActive, the device every lookup finds, and the
    result of every device or six-axis call; values passed by reference come
    back unchanged.  Its state counts the calls received. *)
Definition fixed_resource_manager (aruid_result : Result) (active : bool)
    (device : option nat) (call_result : Result)
  : ResourceManager unit unit unit unit nat nat :=
  fun c w =>
    (match c return Answer c with
     | RmInitialize => tt
     | RmIsVibrationAruidActive _ _ => (aruid_result, active)
     | RmGetNSVibrationDevice _ => device
     | RmGetGcVibrationDevice _ => device
     | RmGetN64VibrationDevice _ => device
     | RmGetVibrationDevice _ => device
     | DevGetActualVibrationValue _ v => (call_result, v)
     | DevSendVibrationGcErmCommand _ _ => call_result
     | DevGetActualVibrationGcErmCommand _ c => (call_result, c)
     | DevSendValueInBool _ _ => call_result
     | DevIsVibrationMounted _ => true
     | SixAxisSetSixAxisFusionParameters _ _ => call_result
     | SixAxisSetSixAxisFusionEnabled _ _ => call_result
     end, S w).

(** * Properties *)

Section Basics.

Context {VibrationValue : Type}.

Local Abbreviation Env := (Collaborators VibrationValue).

(** ** Result codes *)

Lemma IsError_negb_IsSuccess (r : Result) : IsError r = negb (IsSuccess r).
Proof. reflexivity. Qed.

Lemma IsSuccess_ResultSuccess (r : Result) :
  IsSuccess r = true -> r = ResultSuccess.
Proof.
  destruct r as [z]. unfold IsSuccess, ResultSuccess. simpl.
  intros H. apply Z.eqb_eq in H. now subst.
Qed.

Lemma not_IsError_ResultSuccess (r : Result) :
  IsError r = false -> r = ResultSuccess.
Proof.
  rewrite IsError_negb_IsSuccess. intros H.
  apply IsSuccess_ResultSuccess. now destruct (IsSuccess r).
Qed.

(** ** Running a sequence *)

Lemma run_bind {W A B : Type} (env : Env W) (p : Prog VibrationValue A)
    (f : A -> Prog VibrationValue B) (w : W) :
  run env (bind p f) w =
  match run env p w with
  | (Some a, w1, tr1) =>
      let '(o, w2, tr2) := run env (f a) w1 in (o, w2, tr1 ++ tr2)
  | (None, w1, tr1) => (None, w1, tr1)
  end.
Proof.
  revert w. induction p as [a | | k IH | c k IH]; intros w; simpl.
  - now destruct (run env (f a) w) as [[o w2] tr2].
  - reflexivity.
  - destruct (is_device_managed env w) as [b w1]. rewrite IH.
    destruct (run env (k b) w1) as [[[a|] w2] tr]; [|reflexivity].
    now destruct (run env (f a) w2) as [[o w3] tr2].
  - destruct (delegate env c w) as [r w1]. rewrite IH.
    destruct (run env (k r) w1) as [[[a|] w2] tr]; [|reflexivity].
    now destruct (run env (f a) w2) as [[o w3] tr2].
Qed.

(** ** The scan *)

Lemma handle_matches_fields (h e : VibrationDeviceHandle) :
  handle_matches h e = true <->
  npad_type h = npad_type e /\ npad_id h = npad_id e /\
  device_index h = device_index e.
Proof.
  unfold handle_matches. rewrite !andb_true_iff, !Z.eqb_eq. tauto.
Qed.

Lemma handle_matches_sym (h e : VibrationDeviceHandle) :
  handle_matches h e = handle_matches e h.
Proof.
  unfold handle_matches.
  now rewrite (Z.eqb_sym (device_index h)), (Z.eqb_sym (npad_id h)),
    (Z.eqb_sym (npad_type h)).
Qed.

Lemma handle_matches_refl (h : VibrationDeviceHandle) :
  handle_matches h h = true.
Proof. apply handle_matches_fields. auto. Qed.

(** Inside the array the scan is a search among the slots it visits. *)
Lemma scan_from_in_bounds (h : VibrationDeviceHandle)
    (lst : list VibrationDeviceHandle) (n i : nat) :
  (i + n <= length lst)%nat ->
  scan_from h lst i n = Some (existsb (handle_matches h) (take n (drop i lst))).
Proof.
  revert i. induction n as [|n IH]; intros i Hle; simpl.
  - reflexivity.
  - destruct (lst !! i) as [e|] eqn:He.
    + rewrite (drop_S _ _ _ He). simpl.
      destruct (handle_matches h e); [reflexivity|].
      apply IH. lia.
    + apply lookup_ge_None in He. lia.
Qed.

Lemma scan_is_active (h : VibrationDeviceHandle)
    (self : IActiveVibrationDeviceList) :
  well_formed self ->
  scan_from h (vibration_device_list self) 0 (list_size self) =
  Some (is_active h self).
Proof.
  intros [Hlen Hsz]. rewrite scan_from_in_bounds by (simpl; lia).
  reflexivity.
Qed.

Lemma is_active_iff (h : VibrationDeviceHandle)
    (self : IActiveVibrationDeviceList) :
  is_active h self = true <->
  exists i e, (i < list_size self)%nat /\
    vibration_device_list self !! i = Some e /\
    npad_type h = npad_type e /\ npad_id h = npad_id e /\
    device_index h = device_index e.
Proof.
  unfold is_active, active_handles. rewrite existsb_exists. split.
  - intros (e & Hin & Hm). apply list_elem_of_In, list_elem_of_lookup in Hin.
    destruct Hin as [i Hi]. apply lookup_take_Some in Hi as [Hi Hlt].
    exists i, e. split; [exact Hlt|]. split; [exact Hi|].
    now apply handle_matches_fields.
  - intros (i & e & Hlt & Hi & Hf). exists e. split.
    + apply list_elem_of_In, list_elem_of_lookup. exists i.
      apply lookup_take_Some. auto.
    + now apply handle_matches_fields.
Qed.

End Basics.

Section Properties.

Context {VibrationValue : Type}.
Variable IsVibrationHandleValid : VibrationDeviceHandle -> Result.
Variable ResultVibrationDeviceIndexOutOfRange : Result.
Variable ResultVibrationArraySizeMismatch : Result.

Local Abbreviation Activate :=
  (ActivateVibrationDeviceImpl (VibrationValue := VibrationValue)
     IsVibrationHandleValid ResultVibrationDeviceIndexOutOfRange).
Local Abbreviation ActivateEach :=
  (activate_each (VibrationValue := VibrationValue)
     IsVibrationHandleValid ResultVibrationDeviceIndexOutOfRange).
Local Abbreviation Env := (Collaborators VibrationValue).

(** ** One activation *)

(** What one call does on a well-formed list, case by case. *)
Lemma run_Activate {W : Type} (env : Env W) (h : VibrationDeviceHandle)
    (self : IActiveVibrationDeviceList) (w : W) :
  well_formed self ->
  run env (Activate h self) w =
  if IsError (IsVibrationHandleValid h) then
    (Some (IsVibrationHandleValid h, self), w, [])
  else if is_active h self then (Some (ResultSuccess, self), w, [])
  else if Nat.eqb (list_size self) capacity then
    (Some (ResultVibrationDeviceIndexOutOfRange, self), w, [])
  else
    let c := VibrationDeviceActivate h in
    let '(r, w1) := delegate env c w in
    if IsError r then (Some (r, self), w1, [EvDelegate c r])
    else
      (Some (ResultSuccess,
             MkList (S (list_size self))
                    (<[list_size self := h]> (vibration_device_list self))),
       w1, [EvDelegate c r]).
Proof.
  intros Hwf. unfold ActivateVibrationDeviceImpl.
  destruct (IsError (IsVibrationHandleValid h)); [reflexivity|].
  rewrite (scan_is_active h self Hwf).
  destruct (is_active h self); [reflexivity|].
  destruct (Nat.eqb (list_size self) capacity) eqn:Hfull; [reflexivity|].
  apply Nat.eqb_neq in Hfull. destruct Hwf as [Hlen Hsz].
  simpl. destruct (delegate env (VibrationDeviceActivate h) w) as [r w1].
  destruct (IsError r); [reflexivity|].
  assert (Hlt : Nat.ltb (list_size self) (length (vibration_device_list self))
                = true) by (apply Nat.ltb_lt; lia).
  rewrite Hlt. reflexivity.
Qed.

Lemma well_formed_new_list : well_formed new_list.
Proof.
  unfold well_formed, new_list. cbn [vibration_device_list list_size].
  rewrite length_replicate. lia.
Qed.

Lemma active_handles_new_list : active_handles new_list = [].
Proof. reflexivity. Qed.

(** Writing slot [list_size] and counting it appends to the active handles. *)
Lemma active_handles_push (h : VibrationDeviceHandle)
    (self : IActiveVibrationDeviceList) :
  (list_size self < length (vibration_device_list self))%nat ->
  active_handles
    (MkList (S (list_size self))
            (<[list_size self := h]> (vibration_device_list self))) =
  active_handles self ++ [h].
Proof.
  intros Hlt. unfold active_handles. simpl.
  rewrite (take_S_r _ _ h) by (now apply list_lookup_insert_eq).
  rewrite take_insert_ge by lia. reflexivity.
Qed.

Lemma well_formed_push (h : VibrationDeviceHandle)
    (self : IActiveVibrationDeviceList) :
  well_formed self -> list_size self <> capacity ->
  well_formed
    (MkList (S (list_size self))
            (<[list_size self := h]> (vibration_device_list self))).
Proof.
  intros [Hlen Hsz] Hne. unfold well_formed. simpl.
  rewrite length_insert. lia.
Qed.

(** On a well-formed list a call returns, and leaves a well-formed list. *)
Lemma Activate_well_formed {W : Type} (env : Env W)
    (h : VibrationDeviceHandle) (self : IActiveVibrationDeviceList) (w : W) :
  well_formed self ->
  exists r self' w' tr,
    run env (Activate h self) w = (Some (r, self'), w', tr) /\
    well_formed self'.
Proof.
  intros Hwf. rewrite (run_Activate env h self w Hwf).
  destruct (IsError (IsVibrationHandleValid h)); [eauto 6|].
  destruct (is_active h self); [eauto 6|].
  destruct (Nat.eqb (list_size self) capacity) eqn:Hfull; [eauto 6|].
  apply Nat.eqb_neq in Hfull. cbv zeta.
  destruct (delegate env (VibrationDeviceActivate h) w) as [r w1].
  destruct (IsError r); [eauto 6|].
  do 4 eexists. split; [reflexivity|]. now apply well_formed_push.
Qed.

(** ** A run of activations *)

(** Whatever the handles and the collaborators, a run of activations on a
    well-formed list returns one result per handle and leaves a well-formed
    list. *)
Lemma activate_each_well_formed {W : Type} (env : Env W)
    (hs : list VibrationDeviceHandle) :
  forall (self : IActiveVibrationDeviceList) (w : W),
  well_formed self ->
  exists rs self' w' tr,
    run env (ActivateEach hs self) w = (Some (rs, self'), w', tr) /\
    length rs = length hs /\
    well_formed self'.
Proof.
  induction hs as [|h rest IH]; intros self w Hwf.
  - exists [], self, w, []. auto.
  - destruct (Activate_well_formed env h self w Hwf)
      as (r & self1 & w1 & tr1 & Hrun1 & Hwf1).
    destruct (IH self1 w1 Hwf1) as (rs & self' & w' & tr & Hrun & Hlen & Hwf').
    exists (r :: rs), self', w', (tr1 ++ tr).
    cbn [activate_each]. rewrite run_bind, Hrun1. cbn [snd fst].
    rewrite run_bind, Hrun. simpl. rewrite app_nil_r, Hlen. auto.
Qed.

Lemma distinct_handles_snoc (l : list VibrationDeviceHandle)
    (h : VibrationDeviceHandle) :
  distinct_handles (l ++ [h]) =
  distinct_handles l && negb (existsb (handle_matches h) l).
Proof.
  induction l as [|e l IH]; simpl; [reflexivity|].
  rewrite existsb_app, IH. simpl.
  rewrite orb_false_r, (handle_matches_sym h e).
  destruct (existsb (handle_matches e) l), (handle_matches e h),
    (distinct_handles l), (existsb (handle_matches h) l); reflexivity.
Qed.

(** No activation makes two active handles match. *)
Lemma Activate_keeps_distinct {W : Type} (env : Env W)
    (h : VibrationDeviceHandle) (self : IActiveVibrationDeviceList) (w : W) :
  well_formed self ->
  distinct_handles (active_handles self) = true ->
  exists r self' w' tr,
    run env (Activate h self) w = (Some (r, self'), w', tr) /\
    distinct_handles (active_handles self') = true.
Proof.
  intros Hwf Hd. rewrite (run_Activate env h self w Hwf).
  destruct (IsError (IsVibrationHandleValid h)); [eauto 6|].
  destruct (is_active h self) eqn:Hact; [eauto 6|].
  destruct (Nat.eqb (list_size self) capacity) eqn:Hfull; [eauto 6|].
  apply Nat.eqb_neq in Hfull. cbv zeta.
  destruct (delegate env (VibrationDeviceActivate h) w) as [r w1].
  destruct (IsError r); [eauto 6|].
  do 4 eexists. split; [reflexivity|].
  rewrite active_handles_push by (destruct Hwf; lia).
  rewrite distinct_handles_snoc, Hd. unfold is_active in Hact.
  now rewrite Hact.
Qed.


Lemma run_activate_each {W : Type} (env : Env W)
    (hs : list VibrationDeviceHandle) :
  forall (self : IActiveVibrationDeviceList) (w : W),
  well_formed self ->
  (list_size self + length hs <= capacity)%nat ->
  distinct_handles hs = true ->
  forallb (fun h => negb (is_active h self)) hs = true ->
  forallb (fun h => negb (IsError (IsVibrationHandleValid h))) hs = true ->
  (forall h w0, In h hs ->
     IsError (fst (delegate env (VibrationDeviceActivate h) w0)) = false) ->
  exists self' w' tr,
    run env (ActivateEach hs self) w =
      (Some (replicate (length hs) ResultSuccess, self'), w', tr) /\
    well_formed self' /\
    list_size self' = (list_size self + length hs)%nat /\
    active_handles self' = active_handles self ++ hs.
Proof.
  induction hs as [|h rest IH]; intros self w Hwf Hroom Hdist Hnew Hvalid Hok.
  - simpl. exists self, w, []. rewrite Nat.add_0_r, app_nil_r. auto.
  - simpl in Hroom, Hdist, Hnew, Hvalid.
    apply andb_true_iff in Hdist as [Hh Hdist].
    apply andb_true_iff in Hnew as [Hhnew Hnew].
    apply andb_true_iff in Hvalid as [Hhvalid Hvalid].
    apply negb_true_iff in Hh, Hhnew, Hhvalid.
    cbn [activate_each]. rewrite run_bind, (run_Activate env h self w Hwf).
    rewrite Hhvalid, Hhnew.
    assert (Hne : list_size self <> capacity) by lia.
    destruct (Nat.eqb_spec (list_size self) capacity) as [|_]; [contradiction|].
    cbv zeta.
    pose proof (Hok h w (or_introl eq_refl)) as Hacc.
    destruct (delegate env (VibrationDeviceActivate h) w) as [r w1].
    simpl in Hacc. rewrite Hacc.
    set (self1 := MkList (S (list_size self))
                    (<[list_size self := h]> (vibration_device_list self))).
    assert (Hwf1 : well_formed self1) by (now apply well_formed_push).
    assert (Hact1 : active_handles self1 = active_handles self ++ [h]).
    { apply active_handles_push. destruct Hwf. lia. }
    destruct (IH self1 w1) as (self' & w' & tr & Hrun & Hwf' & Hsz & Hact).
    + exact Hwf1.
    + simpl. lia.
    + exact Hdist.
    + apply forallb_forall. intros x Hx.
      unfold is_active. rewrite Hact1, existsb_app. simpl.
      rewrite forallb_forall in Hnew. specialize (Hnew x Hx).
      apply negb_true_iff in Hnew. unfold is_active in Hnew. rewrite Hnew.
      simpl. rewrite orb_false_r, handle_matches_sym.
      apply negb_true_iff.
      destruct (handle_matches h x) eqn:Hm; [|reflexivity].
      assert (existsb (handle_matches h) rest = true)
        by (apply existsb_exists; eauto).
      congruence.
    + exact Hvalid.
    + intros x w0 Hx. apply Hok. now right.
    + rewrite run_bind. simpl snd. rewrite Hrun. simpl. rewrite app_nil_r.
      exists self', w', (EvDelegate (VibrationDeviceActivate h) r :: tr).
      split; [reflexivity|]. split; [exact Hwf'|]. split.
      * rewrite Hsz. simpl. lia.
      * rewrite Hact, Hact1, <- app_assoc. reflexivity.
Qed.

(** ** Claims on the vibration device list *)

(** C1 (as amended).  For a valid handle that is not yet in the list, when
    the list is not full and the device's [Activate] succeeds, activating the
    handle twice returns success both times and [list_size] grows by exactly
    one in total: the first call asks the delegate once and appends the
    handle, the second call makes no delegate call and leaves the list as it
    is. *)
Theorem activate_twice {W : Type} (env : Env W) (h : VibrationDeviceHandle)
    (self : IActiveVibrationDeviceList) (w : W) :
  well_formed self ->
  IsError (IsVibrationHandleValid h) = false ->
  is_active h self = false ->
  (list_size self < capacity)%nat ->
  IsError (fst (delegate env (VibrationDeviceActivate h) w)) = false ->
  exists self1 w1,
    run env (Activate h self) w =
      (Some (ResultSuccess, self1), w1,
       [EvDelegate (VibrationDeviceActivate h) ResultSuccess]) /\
    run env (Activate h self1) w1 = (Some (ResultSuccess, self1), w1, []) /\
    list_size self1 = S (list_size self) /\
    active_handles self1 = active_handles self ++ [h].
Proof.
  intros Hwf Hvalid Hnew Hroom Hacc.
  assert (Hne : list_size self <> capacity) by lia.
  set (self1 := MkList (S (list_size self))
                  (<[list_size self := h]> (vibration_device_list self))).
  assert (Hwf1 : well_formed self1) by (now apply well_formed_push).
  assert (Hact1 : active_handles self1 = active_handles self ++ [h]).
  { apply active_handles_push. destruct Hwf. lia. }
  destruct (delegate env (VibrationDeviceActivate h) w) as [r w1] eqn:Hd.
  simpl in Hacc. exists self1, w1. split; [|split; [|split]].
  - rewrite (run_Activate env h self w Hwf), Hvalid, Hnew.
    destruct (Nat.eqb_spec (list_size self) capacity) as [|_]; [contradiction|].
    cbv zeta. rewrite Hd, Hacc.
    now rewrite (not_IsError_ResultSuccess r Hacc).
  - rewrite (run_Activate env h self1 w1 Hwf1), Hvalid.
    unfold is_active. rewrite Hact1, existsb_app. simpl.
    now rewrite handle_matches_refl, orb_true_r.
  - reflexivity.
  - exact Hact1.
Qed.

(** C2 (as amended).  The list is created well formed, every call on a
    well-formed list returns and leaves [list_size <= capacity], and so does
    every run of calls from the new list.  Starting
    from the new list, with a delegate that accepts the activations,
    activating [capacity] valid handles no two of which match succeeds every
    time and leaves [list_size = capacity]; activating one more valid handle
    that matches none of them then returns
    [ResultVibrationDeviceIndexOutOfRange] without any delegate call and
    leaves the list as it is. *)
Theorem capacity_bound :
  well_formed new_list /\
  (forall (W : Type) (env : Env W) (h : VibrationDeviceHandle)
          (self : IActiveVibrationDeviceList) (w : W),
     well_formed self ->
     exists r self' w' tr,
       run env (Activate h self) w = (Some (r, self'), w', tr) /\
       length (vibration_device_list self') = capacity /\
       (list_size self' <= capacity)%nat) /\
  (forall (W : Type) (env : Env W) (hs : list VibrationDeviceHandle) (w : W),
     exists rs self' w' tr,
       run env (ActivateEach hs new_list) w = (Some (rs, self'), w', tr) /\
       length rs = length hs /\
       (list_size self' <= capacity)%nat) /\
  (forall (W : Type) (env : Env W) (hs : list VibrationDeviceHandle)
          (extra : VibrationDeviceHandle) (w : W),
     length hs = capacity ->
     distinct_handles (extra :: hs) = true ->
     forallb (fun h => negb (IsError (IsVibrationHandleValid h)))
             (extra :: hs) = true ->
     (forall h w0, In h hs ->
        IsError (fst (delegate env (VibrationDeviceActivate h) w0)) = false) ->
     exists self w1 tr,
       run env (ActivateEach hs new_list) w =
         (Some (replicate capacity ResultSuccess, self), w1, tr) /\
       list_size self = capacity /\
       active_handles self = hs /\
       run env (Activate extra self) w1 =
         (Some (ResultVibrationDeviceIndexOutOfRange, self), w1, [])).
Proof.
  split; [exact well_formed_new_list|]. split.
  - intros W env h self w Hwf.
    destruct (Activate_well_formed env h self w Hwf)
      as (r & self' & w' & tr & Hrun & Hlen & Hsz).
    exists r, self', w', tr. auto.
  - split.
    { intros W env hs w.
      destruct (activate_each_well_formed env hs new_list w
                  well_formed_new_list)
        as (rs & self' & w' & tr & Hrun & Hlen & _ & Hsz).
      exists rs, self', w', tr. auto. }
    intros W env hs extra w Hlen Hdist Hvalid Hok.
    simpl in Hdist, Hvalid.
    apply andb_true_iff in Hdist as [Hextra Hdist].
    apply andb_true_iff in Hvalid as [Hev Hvalid].
    apply negb_true_iff in Hextra, Hev.
    destruct (run_activate_each env hs new_list w)
      as (self & w1 & tr & Hrun & Hwf & Hsz & Hact).
    + exact well_formed_new_list.
    + simpl. lia.
    + exact Hdist.
    + apply forallb_forall. intros x _. reflexivity.
    + exact Hvalid.
    + exact Hok.
    + rewrite active_handles_new_list in Hact. simpl in Hact, Hsz.
      rewrite Hlen in Hrun, Hsz.
      exists self, w1, tr. split; [exact Hrun|]. split; [exact Hsz|].
      split; [exact Hact|].
      rewrite (run_Activate env extra self w1 Hwf), Hev.
      unfold is_active. rewrite Hact, Hextra, Hsz, Nat.eqb_refl.
      reflexivity.
Qed.

(** C3.  For a valid handle that is already in the list, activation returns
    success whatever [list_size] is, in particular when the list is full:
    the scan returns before the capacity test, no delegate call is made and
    the list is left as it is. *)
Theorem activate_present_when_full {W : Type} (env : Env W)
    (h : VibrationDeviceHandle) (self : IActiveVibrationDeviceList) (w : W) :
  well_formed self ->
  IsError (IsVibrationHandleValid h) = false ->
  is_active h self = true ->
  run env (Activate h self) w = (Some (ResultSuccess, self), w, []).
Proof.
  intros Hwf Hvalid Hact.
  now rewrite (run_Activate env h self w Hwf), Hvalid, Hact.
Qed.

(** C4.  A call on a well-formed list returns, and when the result is an
    error the list is exactly what it was.  When the validator rejects the
    handle its result is returned with no delegate call at all, and when the
    delegate's [Activate] answers an error that error is returned and the
    handle is not inserted. *)
Theorem activate_atomic_on_error {W : Type} (env : Env W)
    (h : VibrationDeviceHandle) (self : IActiveVibrationDeviceList) (w : W) :
  well_formed self ->
  exists r self' w' tr,
    run env (Activate h self) w = (Some (r, self'), w', tr) /\
    (IsError r = true -> self' = self) /\
    (IsError (IsVibrationHandleValid h) = true ->
       r = IsVibrationHandleValid h /\ tr = [] /\ w' = w) /\
    (forall c e, In (EvDelegate c e) tr -> IsError e = true ->
       r = e /\ self' = self).
Proof.
  intros Hwf. rewrite (run_Activate env h self w Hwf).
  destruct (IsError (IsVibrationHandleValid h)) eqn:Hvalid.
  { do 4 eexists. split; [reflexivity|]. simpl. intuition. }
  destruct (is_active h self).
  { do 4 eexists. split; [reflexivity|]. simpl. intuition congruence. }
  destruct (Nat.eqb (list_size self) capacity).
  { do 4 eexists. split; [reflexivity|]. simpl. intuition congruence. }
  cbv zeta.
  destruct (delegate env (VibrationDeviceActivate h) w) as [r w1].
  destruct (IsError r) eqn:Hr.
  - do 4 eexists. split; [reflexivity|]. simpl.
    split; [auto|]. split; [congruence|].
    intros c e [He|[]] _. injection He as _ <-. auto.
  - do 4 eexists. split; [reflexivity|]. simpl.
    split; [discriminate|]. split; [congruence|].
    intros c e [He|[]] Herr. injection He as _ <-. congruence.
Qed.

(** On a well-formed list, when the out-of-range code is an error, the call
    for a valid handle ends as the call for a handle that is already there
    (success, the list and the collaborators as they were, no delegate call)
    exactly when the scan finds the handle. *)
Lemma found_iff_is_active {W : Type} (env : Env W)
    (h : VibrationDeviceHandle) (self : IActiveVibrationDeviceList) (w : W) :
  well_formed self ->
  IsError ResultVibrationDeviceIndexOutOfRange = true ->
  IsError (IsVibrationHandleValid h) = false ->
  run env (Activate h self) w = (Some (ResultSuccess, self), w, []) <->
  is_active h self = true.
Proof.
  intros Hwf Hoor Hvalid.
  rewrite (run_Activate env h self w Hwf), Hvalid.
  destruct (is_active h self); [tauto|].
  destruct (Nat.eqb (list_size self) capacity).
  { split; [|discriminate]. intros [= Heq]. rewrite Heq in Hoor.
    discriminate Hoor. }
  cbv zeta.
  destruct (delegate env (VibrationDeviceActivate h) w) as [r w1].
  destruct (IsError r); split; discriminate.
Qed.

Lemma is_active_same_fields (h1 h2 : VibrationDeviceHandle)
    (self : IActiveVibrationDeviceList) :
  npad_type h1 = npad_type h2 -> npad_id h1 = npad_id h2 ->
  device_index h1 = device_index h2 ->
  is_active h1 self = is_active h2 self.
Proof.
  intros Ht Hi Hd. unfold is_active.
  induction (active_handles self) as [|e l IH]; [reflexivity|].
  simpl. unfold handle_matches at 1 3. now rewrite Ht, Hi, Hd, IH.
Qed.

(** C8.  The duplicate detection of [ActivateVibrationDeviceImpl] goes by
    [npad_type], [npad_id] and [device_index] and by nothing else.  On a
    well-formed list, when the out-of-range code is an error, the call for a
    valid handle is answered as a duplicate (success, nothing inserted, no
    delegate call, list and collaborators unchanged) if and only if an
    active slot agrees with the handle on the three fields.  Two valid
    handles that agree on the three fields are therefore answered as
    duplicates by the same lists, whatever else they carry, and the scan
    gives them the same answer on every list. *)
Theorem handle_identity {W : Type} (env : Env W)
    (h1 h2 : VibrationDeviceHandle) (self : IActiveVibrationDeviceList)
    (w : W) :
  well_formed self ->
  IsError ResultVibrationDeviceIndexOutOfRange = true ->
  IsError (IsVibrationHandleValid h1) = false ->
  IsError (IsVibrationHandleValid h2) = false ->
  (run env (Activate h1 self) w = (Some (ResultSuccess, self), w, []) <->
   exists i e, (i < list_size self)%nat /\
     vibration_device_list self !! i = Some e /\
     npad_type h1 = npad_type e /\ npad_id h1 = npad_id e /\
     device_index h1 = device_index e) /\
  ((forall i e, (i < list_size self)%nat ->
      vibration_device_list self !! i = Some e ->
      ~ (npad_type h1 = npad_type e /\ npad_id h1 = npad_id e /\
         device_index h1 = device_index e)) ->
   exists r self' w' tr,
     run env (Activate h1 self) w = (Some (r, self'), w', tr) /\
     ((list_size self = capacity /\
       r = ResultVibrationDeviceIndexOutOfRange /\ self' = self /\ tr = []) \/
      (exists a, tr = [EvDelegate (VibrationDeviceActivate h1) a]))) /\
  (npad_type h1 = npad_type h2 -> npad_id h1 = npad_id h2 ->
   device_index h1 = device_index h2 ->
   (run env (Activate h1 self) w = (Some (ResultSuccess, self), w, []) <->
    run env (Activate h2 self) w = (Some (ResultSuccess, self), w, [])) /\
   (forall lst i n, scan_from h1 lst i n = scan_from h2 lst i n)) /\
  (handle_matches h1 h2 = true <->
     npad_type h1 = npad_type h2 /\ npad_id h1 = npad_id h2 /\
     device_index h1 = device_index h2) /\
  (scan_from h1 (vibration_device_list self) 0 (list_size self) = Some true
   <->
   exists i e, (i < list_size self)%nat /\
     vibration_device_list self !! i = Some e /\
     npad_type h1 = npad_type e /\ npad_id h1 = npad_id e /\
     device_index h1 = device_index e).
Proof.
  intros Hwf Hoor Hv1 Hv2.
  split; [|split; [|split; [|split]]].
  - rewrite (found_iff_is_active env h1 self w Hwf Hoor Hv1).
    apply is_active_iff.
  - intros Hnone.
    assert (Hna : is_active h1 self = false).
    { destruct (is_active h1 self) eqn:Ha; [|reflexivity].
      apply is_active_iff in Ha as (i & e & Hlt & Hi & Hf).
      destruct (Hnone i e Hlt Hi Hf). }
    rewrite (run_Activate env h1 self w Hwf), Hv1, Hna.
    destruct (Nat.eqb_spec (list_size self) capacity) as [Hfull|Hroom].
    { do 4 eexists. split; [reflexivity|]. left. auto. }
    cbv zeta.
    destruct (delegate env (VibrationDeviceActivate h1) w) as [r w1].
    destruct (IsError r); do 4 eexists; (split; [reflexivity|]);
      right; eexists; reflexivity.
  - intros Ht Hi Hd. split.
    + rewrite (found_iff_is_active env h1 self w Hwf Hoor Hv1).
      rewrite (found_iff_is_active env h2 self w Hwf Hoor Hv2).
      now rewrite (is_active_same_fields h1 h2 self Ht Hi Hd).
    + intros lst i n. revert i.
      induction n as [|n IH]; intros i; simpl; [reflexivity|].
      destruct (lst !! i) as [e|]; [|reflexivity].
      unfold handle_matches. rewrite Ht, Hi, Hd, IH. reflexivity.
  - apply handle_matches_fields.
  - rewrite (scan_is_active h1 self Hwf), <- is_active_iff.
    split; [now intros [= ->]|now intros ->].
Qed.

(** ** Claims on the IHidServer handlers *)

Ltac solve_trace :=
  unfold called; simpl;
  repeat split; intros;
  repeat match goal with
  | H : _ \/ _ |- _ => destruct H
  | H : exists _, _ |- _ => destruct H
  | H : _ /\ _ |- _ => destruct H
  | H : False |- _ => destruct H
  | H : EvDelegate _ _ = EvDelegate _ _ |- _ => injection H as ? ?; subst
  end;
  try discriminate; try congruence; eauto 6.

(** The shape shared by the six handlers, for any device. *)
Lemma managed_mode_skip_shape (d : Device) :
  managed_mode_skip (VibrationValue := VibrationValue) d
    (fun applet_resource_user_id =>
       bind ask_managed (fun managed =>
       bind (if negb managed then call (DeviceActivate d)
             else Ret ResultSuccess) (fun result =>
       bind (if IsSuccess result
             then call (DeviceActivateFor d applet_resource_user_id)
             else Ret result) (fun result =>
       Ret (respond result))))).
Proof.
  intros W env aruid w. simpl.
  destruct (is_device_managed env w) as [managed w1] eqn:Hm. simpl.
  destruct managed; simpl.
  - destruct (delegate env (DeviceActivateFor d aruid) w1) as [r2 w2]. simpl.
    exists true, (respond (if IsError r2 then r2 else ResultSuccess)), w2,
      [EvDelegate (DeviceActivateFor d aruid) r2].
    split.
    { destruct (IsError r2) eqn:He; [reflexivity|].
      now rewrite (not_IsError_ResultSuccess r2 He). }
    split; [reflexivity|]. split; [solve_trace|]. split; [solve_trace|].
    split; [apply sublist_cons, sublist_skip, sublist_nil|].
    split; reflexivity.
  - destruct (delegate env (DeviceActivate d) w1) as [r1 w2]. simpl.
    destruct (IsSuccess r1) eqn:Hs; simpl.
    + destruct (delegate env (DeviceActivateFor d aruid) w2) as [r2 w3]. simpl.
      exists false, (respond (if IsError r2 then r2 else ResultSuccess)), w3,
        [EvDelegate (DeviceActivate d) r1;
         EvDelegate (DeviceActivateFor d aruid) r2].
      split.
      { destruct (IsError r2) eqn:He; [reflexivity|].
        now rewrite (not_IsError_ResultSuccess r2 He). }
      split; [reflexivity|]. split; [solve_trace|]. split; [solve_trace|].
      split; [reflexivity|]. split; [reflexivity|].
      cbn [delegate_answers first_failing].
      assert (IsError r1 = false) as ->
        by (rewrite IsError_negb_IsSuccess, Hs; reflexivity).
      reflexivity.
    + exists false, (respond r1), w2, [EvDelegate (DeviceActivate d) r1].
      split; [reflexivity|]. split; [reflexivity|].
      split; [solve_trace|]. split; [solve_trace|].
      split; [apply sublist_skip, sublist_cons, sublist_nil|].
      split; [reflexivity|].
      cbn [delegate_answers first_failing].
      assert (IsError r1 = true) as ->
        by (rewrite IsError_negb_IsSuccess, Hs; reflexivity).
      reflexivity.
Qed.

(** C5.  ActivateDebugPad, ActivateTouchScreen, ActivateMouse,
    ActivateKeyboard, ActivateGesture and ActivateConsoleSixAxisSensor call
    the device's [Activate()] if and only if [IsDeviceManaged()] answered
    false, call [Activate(applet_resource_user_id)] if and only if the first
    step was skipped or succeeded, and push the first failing answer of the
    two, or success when neither failed. *)
Theorem activation_handlers_managed_mode_skip :
  managed_mode_skip (VibrationValue := VibrationValue) DebugPad ActivateDebugPad /\
  managed_mode_skip (VibrationValue := VibrationValue) TouchScreen ActivateTouchScreen /\
  managed_mode_skip (VibrationValue := VibrationValue) Mouse ActivateMouse /\
  managed_mode_skip (VibrationValue := VibrationValue) Keyboard ActivateKeyboard /\
  (forall basic_gesture_id,
     managed_mode_skip (VibrationValue := VibrationValue) Gesture
       (ActivateGesture basic_gesture_id)) /\
  managed_mode_skip (VibrationValue := VibrationValue) ConsoleSixAxis
    ActivateConsoleSixAxisSensor.
Proof.
  split; [exact (managed_mode_skip_shape DebugPad)|].
  split; [exact (managed_mode_skip_shape TouchScreen)|].
  split; [exact (managed_mode_skip_shape Mouse)|].
  split; [exact (managed_mode_skip_shape Keyboard)|].
  split; [intros basic_gesture_id; exact (managed_mode_skip_shape Gesture)|].
  exact (managed_mode_skip_shape ConsoleSixAxis).
Qed.

(** C9.  ActivateSevenSixAxisSensor pushes [ResultSuccess] whatever the
    collaborators answer.  The device's [Activate()] is called exactly when
    [IsDeviceManaged()] answered false, and its answer only decides whether
    [Activate(applet_resource_user_id)] is called; no answer reaches the
    response. *)
Theorem ActivateSevenSixAxisSensor_always_success {W : Type} (env : Env W)
    (applet_resource_user_id : Z) (w : W) :
  exists managed w' tr,
    run env (ActivateSevenSixAxisSensor applet_resource_user_id) w
      = (Some (respond ResultSuccess), w', EvIsDeviceManaged managed :: tr) /\
    managed = fst (is_device_managed env w) /\
    (called (DeviceActivate SevenSixAxis) tr <-> managed = false) /\
    (called (DeviceActivateFor SevenSixAxis applet_resource_user_id) tr <->
       managed = true \/
       exists r, In (EvDelegate (DeviceActivate SevenSixAxis) r) tr /\
                 IsSuccess r = true) /\
    sublist (delegate_calls tr)
      [DeviceActivate SevenSixAxis;
       DeviceActivateFor SevenSixAxis applet_resource_user_id].
Proof.
  unfold ActivateSevenSixAxisSensor. simpl.
  destruct (is_device_managed env w) as [managed w1] eqn:Hm. simpl.
  destruct managed; simpl.
  - destruct (delegate env
                (DeviceActivateFor SevenSixAxis applet_resource_user_id) w1)
      as [r2 w2]. simpl.
    exists true, w2,
      [EvDelegate (DeviceActivateFor SevenSixAxis applet_resource_user_id) r2].
    split; [reflexivity|]. split; [reflexivity|].
    split; [solve_trace|]. split; [solve_trace|].
    apply sublist_cons, sublist_skip, sublist_nil.
  - destruct (delegate env (DeviceActivate SevenSixAxis) w1) as [r1 w2]. simpl.
    destruct (IsSuccess r1) eqn:Hs; simpl.
    + destruct (delegate env
                  (DeviceActivateFor SevenSixAxis applet_resource_user_id) w2)
        as [r2 w3]. simpl.
      exists false, w3,
        [EvDelegate (DeviceActivate SevenSixAxis) r1;
         EvDelegate (DeviceActivateFor SevenSixAxis applet_resource_user_id) r2].
      split; [reflexivity|]. split; [reflexivity|].
      split; [solve_trace|]. split; [solve_trace|]. reflexivity.
    + exists false, w2, [EvDelegate (DeviceActivate SevenSixAxis) r1].
      split; [reflexivity|]. split; [reflexivity|].
      split; [solve_trace|]. split; [solve_trace|].
      apply sublist_skip, sublist_cons, sublist_nil.
Qed.

(** C6.  GetXpadIds writes the buffer [0, 1, 2, 3], pushes success and the
    count 4, makes no call and leaves the collaborators as they are,
    whatever they are and whatever their state. *)
Theorem GetXpadIds_fixed {W : Type} (env : Env W) (w : W) :
  run env GetXpadIds w =
  (Some (MkResponse ResultSuccess [4] [0; 1; 2; 3]), w, []).
Proof. reflexivity. Qed.

(** C7.  SendKeyboardLockKeyEvent, ActivateXpad, DeactivateNpad and
    SetNpadCommunicationMode push success for every value of their
    parameters, make no call and leave the collaborators as they are. *)
Theorem stubbed_handlers {W : Type} (env : Env W) (w : W) :
  (forall flags,
     run env (SendKeyboardLockKeyEvent flags) w
       = (Some (respond ResultSuccess), w, [])) /\
  (forall basic_xpad_id applet_resource_user_id,
     run env (ActivateXpad basic_xpad_id applet_resource_user_id) w
       = (Some (respond ResultSuccess), w, [])) /\
  (forall applet_resource_user_id,
     run env (DeactivateNpad applet_resource_user_id) w
       = (Some (respond ResultSuccess), w, [])) /\
  (forall applet_resource_user_id communication_mode,
     run env (SetNpadCommunicationMode applet_resource_user_id
                communication_mode) w
       = (Some (respond ResultSuccess), w, [])).
Proof. repeat split. Qed.

(** ** SendVibrationValues *)

(** Once [result] is an error the loop makes no call and reads nothing. *)
Lemma run_send_from_error {W : Type} (env : Env W) (aruid : Z)
    (hs : list VibrationDeviceHandle) (vs : list VibrationValue)
    (n : nat) :
  forall (i : nat) (result : Result) (w : W),
  IsSuccess result = false ->
  run env (send_from aruid hs vs i n result) w = (Some result, w, []).
Proof.
  induction n as [|n IH]; intros i result w Herr; simpl; [reflexivity|].
  rewrite Herr. simpl. apply IH, Herr.
Qed.

(** While [result] is success the loop is the forwarding of the pairs that
    are left. *)
Lemma run_send_from {W : Type} (env : Env W) (aruid : Z)
    (hs : list VibrationDeviceHandle) (vs : list VibrationValue)
    (n : nat) :
  forall (i : nat) (w : W),
  length hs = length vs ->
  (i + n)%nat = length hs ->
  run env (send_from aruid hs vs i n ResultSuccess) w =
  (let '(r, w', tr) := forward_until_error env aruid (drop i (zip hs vs)) w in
   (Some r, w', tr)).
Proof.
  induction n as [|n IH]; intros i w Hlen Hin.
  - rewrite drop_ge by (rewrite length_zip_with; lia). reflexivity.
  - destruct (lookup_lt_is_Some_2 hs i) as [h Hh]; [lia|].
    destruct (lookup_lt_is_Some_2 vs i) as [v Hv]; [lia|].
    assert (Hz : zip hs vs !! i = Some (h, v)).
    { apply lookup_zip_Some. auto. }
    rewrite (drop_S _ _ _ Hz).
    cbn [send_from forward_until_error]. rewrite Hh, Hv.
    change (IsSuccess ResultSuccess) with true. cbv iota.
    rewrite run_bind. cbn [call run].
    destruct (delegate env (SendVibrationValue aruid h v) w) as [r w1].
    destruct (IsError r) eqn:He.
    + rewrite run_send_from_error
        by (rewrite IsError_negb_IsSuccess in He; now destruct (IsSuccess r)).
      reflexivity.
    + rewrite (not_IsError_ResultSuccess r He).
      rewrite IH by lia.
      destruct (forward_until_error env aruid (drop (S i) (zip hs vs)) w1)
        as [[r' w2] tr]. reflexivity.
Qed.

(** Forwarding stops at the first error and returns it. *)
Lemma forward_until_error_trace {W : Type} (env : Env W) (aruid : Z)
    (pairs : list (VibrationDeviceHandle * VibrationValue)) :
  forall (w : W) r w' tr,
  forward_until_error env aruid pairs w = (r, w', tr) ->
  r = first_failing (delegate_answers tr) /\
  length (delegate_calls tr) = length tr /\
  (exists k, delegate_calls tr = take k (vibration_calls aruid pairs)) /\
  (IsError r = false -> delegate_calls tr = vibration_calls aruid pairs) /\
  (forall i e, delegate_answers tr !! i = Some e -> IsError e = true ->
     S i = length tr).
Proof.
  induction pairs as [|[h v] rest IH]; intros w r w' tr Hrun.
  - injection Hrun as <- <- <-. simpl. split; [reflexivity|].
    split; [reflexivity|]. split; [now exists 0%nat|].
    split; [reflexivity|]. intros i e Hi. discriminate.
  - cbn [forward_until_error] in Hrun.
    destruct (delegate env (SendVibrationValue aruid h v) w) as [r1 w1].
    destruct (IsError r1) eqn:He.
    + injection Hrun as <- <- <-. cbn [delegate_answers first_failing].
      rewrite He. split; [reflexivity|]. split; [reflexivity|].
      split; [now exists 1%nat|]. split; [congruence|].
      intros [|i] e Hi; [reflexivity|discriminate].
    + destruct (forward_until_error env aruid rest w1) as [[r' w2] tr'] eqn:Hf.
      injection Hrun as <- <- <-.
      destruct (IH w1 r' w2 tr' Hf) as (Hr & Hlen & [k Hk] & Hall & Hstop).
      cbn [delegate_answers delegate_calls first_failing]. rewrite He.
      split; [exact Hr|]. split; [simpl; now rewrite Hlen|].
      split; [exists (S k); simpl; now rewrite Hk|].
      split; [intros Hok; simpl; now rewrite (Hall Hok)|].
      intros [|i] e Hi Herr.
      * injection Hi as <-. congruence.
      * simpl. f_equal. now apply (Hstop i e).
Qed.

(** C10.  When the two buffers differ in their element counts,
    SendVibrationValues pushes [ResultVibrationArraySizeMismatch] and makes
    no call.  When the counts are equal it forwards the pairs to
    [SendVibrationValue] in buffer order, makes no further call after the
    first answer that is an error, and pushes that error, or success when
    every pair was forwarded without error. *)
Theorem SendVibrationValues_forwarding {W : Type} (env : Env W)
    (applet_resource_user_id : Z)
    (vibration_device_handles : list VibrationDeviceHandle)
    (vibration_values : list VibrationValue) (w : W) :
  IsError ResultVibrationArraySizeMismatch = true ->
  (length vibration_device_handles <> length vibration_values ->
     run env (SendVibrationValues ResultVibrationArraySizeMismatch
                applet_resource_user_id vibration_device_handles
                vibration_values) w
     = (Some (respond ResultVibrationArraySizeMismatch), w, [])) /\
  (length vibration_device_handles = length vibration_values ->
     exists r w' tr,
       run env (SendVibrationValues ResultVibrationArraySizeMismatch
                  applet_resource_user_id vibration_device_handles
                  vibration_values) w
       = (Some (respond r), w', tr) /\
       forward_until_error env applet_resource_user_id
         (zip vibration_device_handles vibration_values) w = (r, w', tr) /\
       r = first_failing (delegate_answers tr) /\
       length (delegate_calls tr) = length tr /\
       (exists k, delegate_calls tr =
          take k (vibration_calls applet_resource_user_id
                    (zip vibration_device_handles vibration_values))) /\
       (IsError r = false ->
          delegate_calls tr =
          vibration_calls applet_resource_user_id
            (zip vibration_device_handles vibration_values)) /\
       (forall i e, delegate_answers tr !! i = Some e -> IsError e = true ->
          S i = length tr)).
Proof.
  intros Hmis. unfold SendVibrationValues. split.
  - intros Hne. apply Nat.eqb_neq in Hne. rewrite Hne. cbn [negb].
    rewrite run_bind, run_send_from_error
      by (rewrite IsError_negb_IsSuccess in Hmis;
          now destruct (IsSuccess ResultVibrationArraySizeMismatch)).
    reflexivity.
  - intros Heq. rewrite Heq, Nat.eqb_refl. cbn [negb].
    rewrite run_bind, <- Heq, run_send_from by (simpl; lia).
    rewrite drop_0.
    destruct (forward_until_error env applet_resource_user_id
                (zip vibration_device_handles vibration_values) w)
      as [[r w'] tr] eqn:Hf.
    exists r, w', tr. split; [simpl; now rewrite app_nil_r|].
    split; [reflexivity|].
    exact (forward_until_error_trace env applet_resource_user_id _ w r w' tr Hf).
Qed.

End Properties.


(** * Examples *)

(** The amended C1 at the new list, with a delegate that accepts. *)
Lemma activate_twice_witness :
  exists self1 w1,
    run accepting
      (ActivateVibrationDeviceImpl sample_validator sample_index_out_of_range
         (MkHandle 3 0 0 0) new_list) 0%nat =
      (Some (ResultSuccess, self1), w1,
       [EvDelegate (VibrationDeviceActivate (MkHandle 3 0 0 0)) ResultSuccess])
    /\
    run accepting
      (ActivateVibrationDeviceImpl sample_validator sample_index_out_of_range
         (MkHandle 3 0 0 0) self1) w1 =
      (Some (ResultSuccess, self1), w1, []) /\
    list_size self1 = S (list_size new_list) /\
    active_handles self1 = active_handles new_list ++ [MkHandle 3 0 0 0].
Proof.
  apply (activate_twice sample_validator sample_index_out_of_range accepting
           (MkHandle 3 0 0 0) new_list 0%nat).
  - split; [vm_compute; reflexivity | vm_compute; lia].
  - reflexivity.
  - reflexivity.
  - vm_compute. lia.
  - reflexivity.
Defined.

(** C1 as it is stated fails in three ways.  On the new list, with a valid
    handle and a device whose [Activate] answers the error 1, the first
    activation returns that error, so it does not return success.  On a full
    list a valid handle that is not in the list is refused although the
    delegate would accept.  And when the handle is already in the list both
    activations succeed and [list_size] does not grow at all. *)
Lemma activate_twice_refused :
  (well_formed new_list /\
   IsError (sample_validator (MkHandle 3 0 0 0)) = false /\
   run refusing
     (ActivateVibrationDeviceImpl sample_validator sample_index_out_of_range
        (MkHandle 3 0 0 0) new_list) 0%nat =
   (Some (MkResult 1, new_list), 1%nat,
    [EvDelegate (VibrationDeviceActivate (MkHandle 3 0 0 0)) (MkResult 1)]) /\
   ~ (exists self1 w1 tr1,
        run refusing
          (ActivateVibrationDeviceImpl sample_validator
             sample_index_out_of_range (MkHandle 3 0 0 0) new_list) 0%nat =
        (Some (ResultSuccess, self1), w1, tr1))) /\
  (well_formed full_list /\
   IsError (sample_validator (MkHandle 4 0 0 0)) = false /\
   run accepting
     (ActivateVibrationDeviceImpl sample_validator sample_index_out_of_range
        (MkHandle 4 0 0 0) full_list) 0%nat =
   (Some (sample_index_out_of_range, full_list), 0%nat, []) /\
   IsSuccess sample_index_out_of_range = false) /\
  (well_formed single_list /\
   IsError (sample_validator (MkHandle 3 7 0 0)) = false /\
   run accepting
     (ActivateVibrationDeviceImpl sample_validator sample_index_out_of_range
        (MkHandle 3 7 0 0) single_list) 0%nat =
   (Some (ResultSuccess, single_list), 0%nat, [])).
Proof.
  split; [|split].
  - split; [split; [vm_compute; reflexivity | vm_compute; lia]|].
    split; [reflexivity|]. split; [reflexivity|].
    intros (self1 & w1 & tr1 & H).
    apply (f_equal (fun x => option_map fst (fst (fst x)))) in H.
    vm_compute in H. discriminate H.
  - split; [split; [vm_compute; reflexivity | vm_compute; lia]|].
    split; [reflexivity|]. split; vm_compute; reflexivity.
  - split; [split; [vm_compute; reflexivity | vm_compute; lia]|].
    split; vm_compute; reflexivity.
Qed.

(** The amended C2 with the 256 sample handles and one more. *)
Lemma capacity_bound_witness :
  exists self w1 tr,
    run accepting
      (activate_each sample_validator sample_index_out_of_range
         (sample_handles capacity) new_list) 0%nat =
      (Some (replicate capacity ResultSuccess, self), w1, tr) /\
    list_size self = capacity /\
    active_handles self = sample_handles capacity /\
    run accepting
      (ActivateVibrationDeviceImpl sample_validator sample_index_out_of_range
         (MkHandle 4 0 0 0) self) w1 =
      (Some (sample_index_out_of_range, self), w1, []).
Proof.
  destruct (capacity_bound (VibrationValue := unit) sample_validator
              sample_index_out_of_range) as (_ & _ & _ & Hfill).
  apply (Hfill nat accepting (sample_handles capacity) (MkHandle 4 0 0 0) 0%nat).
  - vm_compute. reflexivity.
  - vm_compute. reflexivity.
  - vm_compute. reflexivity.
  - intros h w0 _. reflexivity.
Defined.

(** C2 as it is stated fails: with a device whose [Activate] answers the
    error 1, each of the 256 activations of distinct valid handles returns
    that error and the list stays empty. *)
Lemma capacity_bound_refused :
  length (sample_handles capacity) = capacity /\
  distinct_handles (sample_handles capacity) = true /\
  forallb (fun h => negb (IsError (sample_validator h)))
          (sample_handles capacity) = true /\
  fst (fst (run refusing
              (activate_each sample_validator sample_index_out_of_range
                 (sample_handles capacity) new_list) 0%nat)) =
  Some (replicate capacity (MkResult 1), new_list) /\
  IsSuccess (MkResult 1) = false /\
  list_size new_list = 0%nat /\
  ~ (exists self w1 tr,
       run refusing
         (activate_each sample_validator sample_index_out_of_range
            (sample_handles capacity) new_list) 0%nat =
       (Some (replicate capacity ResultSuccess, self), w1, tr)).
Proof.
  assert (Hrun :
    fst (fst (run refusing
                (activate_each sample_validator sample_index_out_of_range
                   (sample_handles capacity) new_list) 0%nat)) =
    Some (replicate capacity (MkResult 1), new_list))
    by (vm_compute; reflexivity).
  split; [vm_compute; reflexivity|]. split; [vm_compute; reflexivity|].
  split; [vm_compute; reflexivity|]. split; [exact Hrun|].
  split; [reflexivity|]. split; [reflexivity|].
  intros (self & w1 & tr & H). rewrite H in Hrun.
  apply (f_equal (fun o => option_map (fun p => hd_error (fst p)) o)) in Hrun.
  vm_compute in Hrun. discriminate Hrun.
Qed.

(** C3 on a full list: the handle is found although the list is full and
    the delegate would refuse. *)
Lemma activate_present_when_full_witness :
  list_size full_list = capacity /\
  run refusing
    (ActivateVibrationDeviceImpl sample_validator sample_index_out_of_range
       (MkHandle 3 7 0 9) full_list) 0%nat =
  (Some (ResultSuccess, full_list), 0%nat, []).
Proof.
  split; [reflexivity|].
  apply (activate_present_when_full sample_validator sample_index_out_of_range
           refusing (MkHandle 3 7 0 9) full_list 0%nat).
  - split; [vm_compute; reflexivity | vm_compute; lia].
  - reflexivity.
  - vm_compute. reflexivity.
Defined.

(** C4 on the new list with a delegate that refuses. *)
Lemma activate_atomic_on_error_witness :
  exists r self' w' tr,
    run refusing
      (ActivateVibrationDeviceImpl sample_validator sample_index_out_of_range
         (MkHandle 3 0 0 0) new_list) 0%nat = (Some (r, self'), w', tr) /\
    (IsError r = true -> self' = new_list) /\
    (IsError (sample_validator (MkHandle 3 0 0 0)) = true ->
       r = sample_validator (MkHandle 3 0 0 0) /\ tr = [] /\ w' = 0%nat) /\
    (forall c e, In (EvDelegate c e) tr -> IsError e = true ->
       r = e /\ self' = new_list).
Proof.
  apply (activate_atomic_on_error sample_validator sample_index_out_of_range
           refusing (MkHandle 3 0 0 0) new_list 0%nat).
  split; [vm_compute; reflexivity | vm_compute; lia].
Defined.

(** C8 on the full list, with two handles that differ in their padding
    only: both are answered as duplicates, although the list is full and the
    delegate would refuse. *)
Lemma handle_identity_witness :
  (run refusing
     (ActivateVibrationDeviceImpl sample_validator sample_index_out_of_range
        (MkHandle 3 5 0 0) full_list) 0%nat =
   (Some (ResultSuccess, full_list), 0%nat, []) <->
   exists i e, (i < list_size full_list)%nat /\
     vibration_device_list full_list !! i = Some e /\
     npad_type (MkHandle 3 5 0 0) = npad_type e /\
     npad_id (MkHandle 3 5 0 0) = npad_id e /\
     device_index (MkHandle 3 5 0 0) = device_index e) /\
  (run refusing
     (ActivateVibrationDeviceImpl sample_validator sample_index_out_of_range
        (MkHandle 3 5 0 0) full_list) 0%nat =
   (Some (ResultSuccess, full_list), 0%nat, []) <->
   run refusing
     (ActivateVibrationDeviceImpl sample_validator sample_index_out_of_range
        (MkHandle 3 5 0 77) full_list) 0%nat =
   (Some (ResultSuccess, full_list), 0%nat, [])) /\
  (forall lst i n,
     scan_from (MkHandle 3 5 0 0) lst i n =
     scan_from (MkHandle 3 5 0 77) lst i n).
Proof.
  destruct (handle_identity sample_validator sample_index_out_of_range
              refusing (MkHandle 3 5 0 0) (MkHandle 3 5 0 77) full_list 0%nat)
    as (Hfound & _ & Hsame & _ & _).
  - split; [vm_compute; reflexivity | vm_compute; lia].
  - reflexivity.
  - reflexivity.
  - reflexivity.
  - split; [exact Hfound|]. apply Hsame; reflexivity.
Defined.

(** C10 with two pairs and with buffers of different lengths. *)
Lemma SendVibrationValues_forwarding_witness :
  run refusing
    (SendVibrationValues sample_size_mismatch 7
       [MkHandle 3 0 0 0; MkHandle 3 0 1 0] [tt]) 0%nat =
  (Some (respond sample_size_mismatch), 0%nat, []) /\
  exists r w' tr,
    run refusing
      (SendVibrationValues sample_size_mismatch 7
         [MkHandle 3 0 0 0; MkHandle 3 0 1 0] [tt; tt]) 0%nat =
    (Some (respond r), w', tr) /\
    r = first_failing (delegate_answers tr).
Proof.
  split.
  - apply (SendVibrationValues_forwarding sample_size_mismatch refusing 7
             [MkHandle 3 0 0 0; MkHandle 3 0 1 0] [tt] 0%nat).
    + reflexivity.
    + simpl. lia.
  - destruct (SendVibrationValues_forwarding sample_size_mismatch refusing 7
                [MkHandle 3 0 0 0; MkHandle 3 0 1 0] [tt; tt] 0%nat)
      as [_ Heq]; [reflexivity|].
    destruct (Heq eq_refl) as (r & w' & tr & Hrun & _ & Hr & _).
    exists r, w', tr. split; [exact Hrun | exact Hr].
Defined.

(** Traces of the handlers on sample collaborators. *)
Example ActivateDebugPad_managed :
  run (fixed_collaborators (VibrationValue := unit) true (fun _ => ResultSuccess))
      (ActivateDebugPad 7) 0%nat =
  (Some (respond ResultSuccess), 2%nat,
   [EvIsDeviceManaged true;
    EvDelegate (DeviceActivateFor DebugPad 7) ResultSuccess]).
Proof. reflexivity. Qed.

Example ActivateDebugPad_first_step_fails :
  run refusing (ActivateDebugPad 7) 0%nat =
  (Some (respond (MkResult 1)), 2%nat,
   [EvIsDeviceManaged false; EvDelegate (DeviceActivate DebugPad) (MkResult 1)]).
Proof. reflexivity. Qed.

Example ActivateSevenSixAxisSensor_hides_error :
  run refusing (ActivateSevenSixAxisSensor 7) 0%nat =
  (Some (respond ResultSuccess), 2%nat,
   [EvIsDeviceManaged false;
    EvDelegate (DeviceActivate SevenSixAxis) (MkResult 1)]).
Proof. reflexivity. Qed.

Example SendVibrationValues_stops :
  run refusing
    (SendVibrationValues sample_size_mismatch 7
       [MkHandle 3 0 0 0; MkHandle 3 0 1 0] [tt; tt]) 0%nat =
  (Some (respond (MkResult 1)), 1%nat,
   [EvDelegate (SendVibrationValue 7 (MkHandle 3 0 0 0) tt) (MkResult 1)]).
Proof. reflexivity. Qed.

(** * Further properties of the vibration device list *)

Section ListProperties.

Context {VibrationValue : Type}.
Variable IsVibrationHandleValid : VibrationDeviceHandle -> Result.
Variable ResultVibrationDeviceIndexOutOfRange : Result.

Local Abbreviation Activate :=
  (ActivateVibrationDeviceImpl (VibrationValue := VibrationValue)
     IsVibrationHandleValid ResultVibrationDeviceIndexOutOfRange).
Local Abbreviation Handle :=
  (ActivateVibrationDevice (VibrationValue := VibrationValue)
     IsVibrationHandleValid ResultVibrationDeviceIndexOutOfRange).
Local Abbreviation Serve :=
  (serve_requests (VibrationValue := VibrationValue)
     IsVibrationHandleValid ResultVibrationDeviceIndexOutOfRange).
Local Abbreviation Env := (Collaborators VibrationValue).

Local Abbreviation outcome :=
  (activation_outcome (VibrationValue := VibrationValue)
     IsVibrationHandleValid ResultVibrationDeviceIndexOutOfRange).

Lemma Activate_outcome {W : Type} (env : Env W) (h : VibrationDeviceHandle)
    (self : IActiveVibrationDeviceList) (w : W) :
  well_formed self ->
  exists r self' w' tr,
    run env (Activate h self) w = (Some (r, self'), w', tr) /\
    outcome env h self w r self' w' tr.
Proof.
  intros Hwf.
  rewrite (run_Activate IsVibrationHandleValid
             ResultVibrationDeviceIndexOutOfRange env h self w Hwf).
  destruct (IsError (IsVibrationHandleValid h)) eqn:Hv.
  { do 4 eexists. split; [reflexivity|]. now constructor. }
  destruct (is_active h self) eqn:Ha.
  { do 4 eexists. split; [reflexivity|]. now constructor. }
  destruct (Nat.eqb_spec (list_size self) capacity) as [Hfull|Hroom].
  { do 4 eexists. split; [reflexivity|]. now constructor. }
  assert (Hlt : (list_size self < capacity)%nat) by (destruct Hwf; lia).
  cbv zeta.
  destruct (delegate env (VibrationDeviceActivate h) w) as [r w1] eqn:Hd.
  destruct (IsError r) eqn:Hr.
  - do 4 eexists. split; [reflexivity|]. now apply refused.
  - do 4 eexists. split; [reflexivity|]. now apply inserted.
Qed.

Lemma run_Handle {W : Type} (env : Env W) (h : VibrationDeviceHandle)
    (self : IActiveVibrationDeviceList) (w : W) r self' w' tr :
  run env (Activate h self) w = (Some (r, self'), w', tr) ->
  run env (Handle h self) w = (Some (respond r, self'), w', tr).
Proof.
  intros Hrun. unfold ActivateVibrationDevice.
  rewrite run_bind, Hrun. simpl. now rewrite app_nil_r.
Qed.

Lemma outcome_well_formed {W : Type} (env : Env W) h self (w : W)
    r self' w' tr :
  well_formed self -> outcome env h self w r self' w' tr -> well_formed self'.
Proof.
  intros Hwf Ho. destruct Ho; try exact Hwf.
  apply well_formed_push; [exact Hwf|lia].
Qed.

Lemma outcome_active_handles {W : Type} (env : Env W) h self (w : W)
    r self' w' tr :
  well_formed self -> outcome env h self w r self' w' tr ->
  active_handles self' = active_handles self ++ activated tr.
Proof.
  intros [Hlen Hsz] Ho. destruct Ho; simpl; try (now rewrite app_nil_r).
  - assert (IsSuccess r = false) as ->
      by (rewrite IsError_negb_IsSuccess in *; now destruct (IsSuccess r)).
    now rewrite app_nil_r.
  - assert (IsSuccess r = true) as ->
      by (rewrite IsError_negb_IsSuccess in *; now destruct (IsSuccess r)).
    apply active_handles_push. lia.
Qed.

(** X1.  Once an activation of a handle has returned success on a
    well-formed list, activating the same handle again returns the same
    result without any delegate call and leaves the list and the
    collaborators as they are. *)
Theorem reactivation_is_noop {W : Type} (env : Env W)
    (h : VibrationDeviceHandle) (self : IActiveVibrationDeviceList) (w : W)
    r self1 w1 tr :
  well_formed self ->
  run env (Activate h self) w = (Some (r, self1), w1, tr) ->
  IsSuccess r = true ->
  run env (Activate h self1) w1 = (Some (r, self1), w1, []).
Proof.
  intros Hwf Hrun Hok.
  destruct (Activate_outcome env h self w Hwf)
    as (r' & self' & w' & tr' & Hrun' & Ho).
  rewrite Hrun in Hrun'. injection Hrun' as <- <- <- <-.
  pose proof (outcome_well_formed env h self w _ _ _ _ Hwf Ho) as Hwf1.
  rewrite (run_Activate IsVibrationHandleValid
             ResultVibrationDeviceIndexOutOfRange env h _ w1 Hwf1).
  destruct Ho as [Hv | Hv Ha | Hv Ha Hfull | r w1 Hv Ha Hlt Hd Hr
                 | r w1 Hv Ha Hlt Hd Hr].
  - rewrite IsError_negb_IsSuccess, Hok in Hv. discriminate.
  - now rewrite Hv, Ha.
  - now rewrite Hv, Ha, Hfull, Nat.eqb_refl.
  - rewrite IsError_negb_IsSuccess, Hok in Hr. discriminate.
  - rewrite Hv. unfold is_active.
    rewrite active_handles_push by (destruct Hwf; lia).
    rewrite existsb_app. simpl.
    now rewrite handle_matches_refl, orb_true_r.
Qed.

(** X2.  When [ResultVibrationDeviceIndexOutOfRange] is an error code, a
    call for a valid handle on a well-formed list returns success if and
    only if the handle is in the list when the call returns. *)
Theorem success_iff_active {W : Type} (env : Env W)
    (h : VibrationDeviceHandle) (self : IActiveVibrationDeviceList) (w : W) :
  well_formed self ->
  IsError ResultVibrationDeviceIndexOutOfRange = true ->
  IsError (IsVibrationHandleValid h) = false ->
  exists r self' w' tr,
    run env (Activate h self) w = (Some (r, self'), w', tr) /\
    (IsSuccess r = true <-> is_active h self' = true).
Proof.
  intros Hwf Hoor Hvalid.
  destruct (Activate_outcome env h self w Hwf)
    as (r & self' & w' & tr & Hrun & Ho).
  exists r, self', w', tr. split; [exact Hrun|].
  destruct Ho as [Hv | Hv Ha | Hv Ha Hfull | r w1 Hv Ha Hlt Hd Hr
                 | r w1 Hv Ha Hlt Hd Hr].
  - congruence.
  - split; auto.
  - rewrite IsError_negb_IsSuccess in Hoor.
    destruct (IsSuccess ResultVibrationDeviceIndexOutOfRange);
      [discriminate|]. rewrite Ha. tauto.
  - rewrite IsError_negb_IsSuccess in Hr.
    destruct (IsSuccess r); [discriminate|]. rewrite Ha. tauto.
  - split; [intros _|reflexivity]. unfold is_active.
    rewrite active_handles_push by (destruct Hwf; lia).
    rewrite existsb_app. simpl.
    now rewrite handle_matches_refl, orb_true_r.
Qed.

(** Serving requests keeps the list well formed and records every accepted
    activation. *)
Lemma run_Serve {W : Type} (env : Env W) (hs : list VibrationDeviceHandle) :
  forall (self : IActiveVibrationDeviceList) (w : W),
  well_formed self ->
  exists rs self' w' tr,
    run env (Serve hs self) w = (Some (rs, self'), w', tr) /\
    length rs = length hs /\
    well_formed self' /\
    active_handles self' = active_handles self ++ activated tr.
Proof.
  induction hs as [|h rest IH]; intros self w Hwf.
  - exists [], self, w, []. simpl. rewrite app_nil_r. auto.
  - destruct (Activate_outcome env h self w Hwf)
      as (r & self1 & w1 & tr1 & Hrun1 & Ho).
    pose proof (outcome_well_formed env h self w _ _ _ _ Hwf Ho) as Hwf1.
    pose proof (outcome_active_handles env h self w _ _ _ _ Hwf Ho) as Hact1.
    destruct (IH self1 w1 Hwf1) as (rs & self' & w' & tr & Hrun & Hlen & Hwf' & Hact).
    exists (respond r :: rs), self', w', (tr1 ++ tr).
    cbn [serve_requests].
    rewrite run_bind, (run_Handle env h self w _ _ _ _ Hrun1). cbn [fst snd].
    rewrite run_bind, Hrun. simpl. rewrite app_nil_r, Hlen.
    split; [reflexivity|]. split; [reflexivity|]. split; [exact Hwf'|].
    rewrite Hact, Hact1, <- app_assoc. f_equal.
    clear. induction tr1 as [|[b|c a] tr1 IHt]; simpl; [reflexivity|exact IHt|].
    destruct c; try exact IHt. destruct (IsSuccess a); simpl; now rewrite IHt.
Qed.

(** X3.  Whatever requests a session serves and whatever the collaborators
    answer, every request is answered and the active handles afterwards are
    the active handles before followed by exactly the handles whose device
    accepted [Activate], in the order of the calls; [list_size] grows by
    their number. *)
Theorem list_is_activation_log {W : Type} (env : Env W)
    (hs : list VibrationDeviceHandle) (self : IActiveVibrationDeviceList)
    (w : W) :
  well_formed self ->
  exists rs self' w' tr,
    run env (Serve hs self) w = (Some (rs, self'), w', tr) /\
    length rs = length hs /\
    active_handles self' = active_handles self ++ activated tr /\
    list_size self' = (list_size self + length (activated tr))%nat.
Proof.
  intros Hwf.
  destruct (run_Serve env hs self w Hwf)
    as (rs & self' & w' & tr & Hrun & Hlen & Hwf' & Hact).
  exists rs, self', w', tr. split; [exact Hrun|]. split; [exact Hlen|].
  split; [exact Hact|].
  apply (f_equal length) in Hact. unfold active_handles in Hact.
  rewrite length_app, !length_take in Hact.
  destruct Hwf as [Hl Hs], Hwf' as [Hl' Hs']. lia.
Qed.

(** A property of the list that every way of ending a call keeps is kept by
    every run of requests. *)
Lemma Serve_invariant {W : Type} (env : Env W)
    (P : IActiveVibrationDeviceList -> Prop) :
  (forall h self w r self' w' tr,
     well_formed self -> P self -> outcome env h self w r self' w' tr ->
     P self') ->
  forall (hs : list VibrationDeviceHandle) (self : IActiveVibrationDeviceList)
         (w : W),
  well_formed self -> P self ->
  exists rs self' w' tr,
    run env (Serve hs self) w = (Some (rs, self'), w', tr) /\ P self'.
Proof.
  intros Hstep. induction hs as [|h rest IH]; intros self w Hwf HP.
  - exists [], self, w, []. auto.
  - destruct (Activate_outcome env h self w Hwf)
      as (r & self1 & w1 & tr1 & Hrun1 & Ho).
    pose proof (outcome_well_formed env h self w _ _ _ _ Hwf Ho) as Hwf1.
    pose proof (Hstep h self w _ _ _ _ Hwf HP Ho) as HP1.
    destruct (IH self1 w1 Hwf1 HP1) as (rs & self' & w' & tr & Hrun & HP').
    exists (respond r :: rs), self', w', (tr1 ++ tr).
    cbn [serve_requests].
    rewrite run_bind, (run_Handle env h self w _ _ _ _ Hrun1). cbn [fst snd].
    rewrite run_bind, Hrun. simpl. rewrite app_nil_r. auto.
Qed.

(** X4.  A run of requests never makes two active handles match: when no
    two active handles of a well-formed list agree on [npad_type], [npad_id]
    and [device_index], the same holds after any requests, whatever the
    collaborators answer.  The new list is such a list. *)
Theorem served_handles_distinct {W : Type} (env : Env W)
    (hs : list VibrationDeviceHandle) (self : IActiveVibrationDeviceList)
    (w : W) :
  well_formed self ->
  distinct_handles (active_handles self) = true ->
  exists rs self' w' tr,
    run env (Serve hs self) w = (Some (rs, self'), w', tr) /\
    distinct_handles (active_handles self') = true.
Proof.
  apply (Serve_invariant env
           (fun s => distinct_handles (active_handles s) = true)).
  intros h s w0 r s' w' tr Hwf Hd Ho.
  destruct Ho as [Hv | Hv Ha | Hv Ha Hfull | r w1 Hv Ha Hlt Hdel Hr
                 | r w1 Hv Ha Hlt Hdel Hr]; try exact Hd.
  rewrite active_handles_push by (destruct Hwf; lia).
  rewrite distinct_handles_snoc, Hd. unfold is_active in Ha. now rewrite Ha.
Qed.

(** X5.  Only handles that the validator accepts enter the list: when every
    active handle of a well-formed list is valid, the same holds after any
    requests, whatever the collaborators answer. *)
Theorem served_handles_valid {W : Type} (env : Env W)
    (hs : list VibrationDeviceHandle) (self : IActiveVibrationDeviceList)
    (w : W) :
  well_formed self ->
  forallb (fun e => negb (IsError (IsVibrationHandleValid e)))
          (active_handles self) = true ->
  exists rs self' w' tr,
    run env (Serve hs self) w = (Some (rs, self'), w', tr) /\
    forallb (fun e => negb (IsError (IsVibrationHandleValid e)))
            (active_handles self') = true.
Proof.
  apply (Serve_invariant env
           (fun s => forallb (fun e => negb (IsError (IsVibrationHandleValid e)))
                             (active_handles s) = true)).
  intros h s w0 r s' w' tr Hwf Hd Ho.
  destruct Ho as [Hv | Hv Ha | Hv Ha Hfull | r w1 Hv Ha Hlt Hdel Hr
                 | r w1 Hv Ha Hlt Hdel Hr]; try exact Hd.
  rewrite active_handles_push by (destruct Hwf; lia).
  rewrite forallb_app, Hd. simpl. now rewrite Hv.
Qed.

(** X6.  A full list is frozen: whatever requests follow, the list and the
    collaborators stay as they are and no delegate call is made; a request
    is answered with the validator's error, with success when the handle is
    in the list, and with [ResultVibrationDeviceIndexOutOfRange]
    otherwise. *)
Theorem full_list_is_frozen {W : Type} (env : Env W)
    (hs : list VibrationDeviceHandle) (self : IActiveVibrationDeviceList)
    (w : W) :
  well_formed self ->
  list_size self = capacity ->
  run env (Serve hs self) w =
  (Some (map (full_list_answer IsVibrationHandleValid
                ResultVibrationDeviceIndexOutOfRange self) hs, self), w, []).
Proof.
  intros Hwf Hfull. induction hs as [|h rest IH]; [reflexivity|].
  cbn [serve_requests map]. rewrite run_bind.
  assert (Hrun : run env (Activate h self) w =
                 (Some (result_code
                          (full_list_answer IsVibrationHandleValid
                             ResultVibrationDeviceIndexOutOfRange self h),
                        self), w, [])).
  { rewrite (run_Activate IsVibrationHandleValid
               ResultVibrationDeviceIndexOutOfRange env h self w Hwf).
    unfold full_list_answer.
    destruct (IsError (IsVibrationHandleValid h)); [reflexivity|].
    destruct (is_active h self); [reflexivity|].
    now rewrite Hfull, Nat.eqb_refl. }
  rewrite (run_Handle env h self w _ _ _ _ Hrun). cbn [fst snd].
  rewrite run_bind, IH. reflexivity.
Qed.

End ListProperties.

(** * Further properties of the IHidServer handlers *)

(** X7.  SendVibrationValue makes the one call that SendVibrationValues
    makes for the same single pair and leaves the collaborators in the same
    state, but it pushes success whatever the resource manager answers,
    where SendVibrationValues pushes the answer. *)
Theorem SendVibrationValue_drops_answer {VibrationValue W : Type}
    (ResultVibrationArraySizeMismatch : Result)
    (env : Collaborators VibrationValue W)
    (h : VibrationDeviceHandle) (v : VibrationValue) (aruid : Z) (w : W) :
  exists r w1,
    delegate env (SendVibrationValue aruid h v) w = (r, w1) /\
    run env (IHidServer_SendVibrationValue h v aruid) w =
      (Some (respond ResultSuccess), w1,
       [EvDelegate (SendVibrationValue aruid h v) r]) /\
    run env (SendVibrationValues ResultVibrationArraySizeMismatch aruid
               [h] [v]) w =
      (Some (respond r), w1, [EvDelegate (SendVibrationValue aruid h v) r]).
Proof.
  destruct (delegate env (SendVibrationValue aruid h v) w) as [r w1] eqn:Hd.
  exists r, w1. split; [reflexivity|].
  unfold IHidServer_SendVibrationValue, SendVibrationValues. simpl.
  rewrite Hd. split; reflexivity.
Qed.

(** * Properties of the handlers that look a vibration device up *)

Section ResourceProperties.

Context {VibrationValue VibrationGcErmCommand SixAxisSensorHandle
         SixAxisSensorFusionParameters DevicePointer : Type}.
Variable IsVibrationHandleValid : VibrationDeviceHandle -> Result.
Variable DEFAULT_VIBRATION_VALUE : VibrationValue.
Variable VibrationGcErmCommand_Stop : VibrationGcErmCommand.
Variable value_initialized_VibrationValue : VibrationValue.
Variable value_initialized_VibrationGcErmCommand : VibrationGcErmCommand.
Variable reset_fusion_parameters : SixAxisSensorFusionParameters.

Local Abbreviation RM :=
  (ResourceManager VibrationValue VibrationGcErmCommand SixAxisSensorHandle
     SixAxisSensorFusionParameters DevicePointer).

Ltac reduce_exec :=
  cbv [exec then_do ask GetResourceManager andb negb fst snd].

Ltac split_flags r0 active h :=
  unfold IsError, IsSuccess in *;
  destruct (raw r0 =? 0) eqn:?; destruct active; reduce_exec;
  destruct (raw (IsVibrationHandleValid h) =? 0) eqn:?;
  reduce_exec.

Lemma raw_zero_ResultSuccess (r : Result) :
  (raw r =? 0) = true -> r = ResultSuccess.
Proof. apply IsSuccess_ResultSuccess. Qed.

(** X8.  GetActualVibrationValue always pushes success.  The value it
    pushes is [DEFAULT_VIBRATION_VALUE] when IsVibrationAruidActive, the
    validator or the device reports an error, the value-initialised value
    when the aruid is not active or no device is found, and the value the
    device gave otherwise. *)
Theorem GetActualVibrationValue_value {W : Type} (rm : RM W)
    (h : VibrationDeviceHandle) (aruid : Z) (w : W) :
  let '(_, w0) := rm RmInitialize w in
  let '((r0, active), w1) := rm (RmIsVibrationAruidActive aruid false) w0 in
  let '(_, w2) := rm RmInitialize w1 in
  let '(device, w3) := rm (RmGetNSVibrationDevice h) w2 in
  fst (fst (exec rm
              (GetActualVibrationValue IsVibrationHandleValid
                 DEFAULT_VIBRATION_VALUE value_initialized_VibrationValue
                 h aruid) w)) =
  (ResultSuccess,
   if IsError r0 then DEFAULT_VIBRATION_VALUE
   else if negb active then value_initialized_VibrationValue
   else if IsError (IsVibrationHandleValid h) then DEFAULT_VIBRATION_VALUE
   else match device with
        | None => value_initialized_VibrationValue
        | Some d =>
            let '((r, v), _) :=
              rm (DevGetActualVibrationValue d
                    value_initialized_VibrationValue) w3 in
            if IsError r then DEFAULT_VIBRATION_VALUE else v
        end).
Proof.
  unfold GetActualVibrationValue. reduce_exec.
  destruct (rm RmInitialize w) as [[] w0].
  destruct (rm (RmIsVibrationAruidActive aruid false) w0) as [[r0 active] w1].
  reduce_exec.
  destruct (rm RmInitialize w1) as [[] w2] eqn:E2.
  destruct (rm (RmGetNSVibrationDevice h) w2) as [device w3] eqn:E3.
  split_flags r0 active h; rewrite ?E2, ?E3; reduce_exec;
    rewrite ?Heqb, ?Heqb0; try reflexivity.
  destruct device as [d|]; reduce_exec.
  - destruct (rm (DevGetActualVibrationValue d
                    value_initialized_VibrationValue) w3) as [[r v] w4].
    reflexivity.
  - rewrite Heqb0. reflexivity.
Qed.

(** X9.  GetActualVibrationValue asks IsVibrationAruidActive first.  It
    looks the device up only when that call succeeded with an active aruid
    and the validator accepts the handle, and it asks the device for its
    value only when a device was found; it makes no other call. *)
Theorem GetActualVibrationValue_calls {W : Type} (rm : RM W)
    (h : VibrationDeviceHandle) (aruid : Z) (w : W) :
  let '(_, w0) := rm RmInitialize w in
  let '((r0, active), w1) := rm (RmIsVibrationAruidActive aruid false) w0 in
  let '(_, w2) := rm RmInitialize w1 in
  let '(device, w3) := rm (RmGetNSVibrationDevice h) w2 in
  snd (exec rm
         (GetActualVibrationValue IsVibrationHandleValid
            DEFAULT_VIBRATION_VALUE value_initialized_VibrationValue
            h aruid) w) =
  RmInitialize :: RmIsVibrationAruidActive aruid false ::
  (if IsSuccess r0 && active && IsSuccess (IsVibrationHandleValid h)
   then RmInitialize :: RmGetNSVibrationDevice h ::
        match device with
        | Some d =>
            [DevGetActualVibrationValue d value_initialized_VibrationValue]
        | None => []
        end
   else []).
Proof.
  unfold GetActualVibrationValue. reduce_exec.
  destruct (rm RmInitialize w) as [[] w0].
  destruct (rm (RmIsVibrationAruidActive aruid false) w0) as [[r0 active] w1].
  reduce_exec.
  destruct (rm RmInitialize w1) as [[] w2] eqn:E2.
  destruct (rm (RmGetNSVibrationDevice h) w2) as [device w3] eqn:E3.
  split_flags r0 active h; rewrite ?E2, ?E3; reduce_exec;
    rewrite ?Heqb, ?Heqb0; try reflexivity.
  destruct device as [d|]; reduce_exec; [|reflexivity].
  destruct (rm (DevGetActualVibrationValue d
                  value_initialized_VibrationValue) w3) as [[r v] w4].
  reflexivity.
Qed.

(** X10.  SendVibrationGcErmCommand sends the command to a device only when
    IsVibrationAruidActive succeeded with an active aruid, the validator
    accepts the handle and a GC device is found; it then returns the
    device's answer.  It returns the error of IsVibrationAruidActive or of
    the validator when there is one, and success without sending anything
    when the aruid is not active or no device is found. *)
Theorem SendVibrationGcErmCommand_guarded {W : Type} (rm : RM W)
    (h : VibrationDeviceHandle) (aruid : Z) (cmd : VibrationGcErmCommand)
    (w : W) :
  let '(_, w0) := rm RmInitialize w in
  let '((r0, active), w1) := rm (RmIsVibrationAruidActive aruid false) w0 in
  let '(_, w2) := rm RmInitialize w1 in
  let '(device, w3) := rm (RmGetGcVibrationDevice h) w2 in
  let '(result, _, calls) :=
    exec rm (SendVibrationGcErmCommand IsVibrationHandleValid h aruid cmd) w in
  result =
    (if IsError r0 then r0
     else if negb active then ResultSuccess
     else if IsError (IsVibrationHandleValid h) then IsVibrationHandleValid h
     else match device with
          | None => ResultSuccess
          | Some d => fst (rm (DevSendVibrationGcErmCommand d cmd) w3)
          end) /\
  calls =
    RmInitialize :: RmIsVibrationAruidActive aruid false ::
    (if IsSuccess r0 && active && IsSuccess (IsVibrationHandleValid h)
     then RmInitialize :: RmGetGcVibrationDevice h ::
          match device with
          | Some d => [DevSendVibrationGcErmCommand d cmd]
          | None => []
          end
     else []).
Proof.
  unfold SendVibrationGcErmCommand. reduce_exec.
  destruct (rm RmInitialize w) as [[] w0].
  destruct (rm (RmIsVibrationAruidActive aruid false) w0) as [[r0 active] w1].
  reduce_exec.
  destruct (rm RmInitialize w1) as [[] w2] eqn:E2.
  destruct (rm (RmGetGcVibrationDevice h) w2) as [device w3] eqn:E3.
  split_flags r0 active h; rewrite ?E2, ?E3; reduce_exec;
    rewrite ?Heqb, ?Heqb0;
    try (split; [reflexivity || (now apply raw_zero_ResultSuccess)
                | reflexivity]).
  destruct device as [d|]; reduce_exec.
  - destruct (rm (DevSendVibrationGcErmCommand d cmd) w3) as [r w4].
    split; reflexivity.
  - split; [now apply raw_zero_ResultSuccess | reflexivity].
Qed.

(** X11.  SendVibrationValueInBool sends the flag to a device only when
    IsVibrationAruidActive succeeded with an active aruid, the validator
    accepts the handle and an N64 device is found; it then returns the
    device's answer.  It returns the error of IsVibrationAruidActive or of
    the validator when there is one, and success without sending anything
    when the aruid is not active or no device is found. *)
Theorem SendVibrationValueInBool_guarded {W : Type} (rm : RM W)
    (h : VibrationDeviceHandle) (aruid : Z) (is_vibrating : bool) (w : W) :
  let '(_, w0) := rm RmInitialize w in
  let '((r0, active), w1) := rm (RmIsVibrationAruidActive aruid false) w0 in
  let '(_, w2) := rm RmInitialize w1 in
  let '(device, w3) := rm (RmGetN64VibrationDevice h) w2 in
  let '(result, _, calls) :=
    exec rm
      (SendVibrationValueInBool IsVibrationHandleValid h aruid is_vibrating) w in
  result =
    (if IsError r0 then r0
     else if negb active then ResultSuccess
     else if IsError (IsVibrationHandleValid h) then IsVibrationHandleValid h
     else match device with
          | None => ResultSuccess
          | Some d => fst (rm (DevSendValueInBool d is_vibrating) w3)
          end) /\
  calls =
    RmInitialize :: RmIsVibrationAruidActive aruid false ::
    (if IsSuccess r0 && active && IsSuccess (IsVibrationHandleValid h)
     then RmInitialize :: RmGetN64VibrationDevice h ::
          match device with
          | Some d => [DevSendValueInBool d is_vibrating]
          | None => []
          end
     else []).
Proof.
  unfold SendVibrationValueInBool. reduce_exec.
  destruct (rm RmInitialize w) as [[] w0].
  destruct (rm (RmIsVibrationAruidActive aruid false) w0) as [[r0 active] w1].
  reduce_exec.
  destruct (rm RmInitialize w1) as [[] w2] eqn:E2.
  destruct (rm (RmGetN64VibrationDevice h) w2) as [device w3] eqn:E3.
  split_flags r0 active h; rewrite ?E2, ?E3; reduce_exec;
    rewrite ?Heqb, ?Heqb0;
    try (split; [reflexivity || (now apply raw_zero_ResultSuccess)
                | reflexivity]).
  destruct device as [d|]; reduce_exec.
  - destruct (rm (DevSendValueInBool d is_vibrating) w3) as [r w4].
    split; reflexivity.
  - split; [now apply raw_zero_ResultSuccess | reflexivity].
Qed.

(** X12.  GetActualVibrationGcErmCommand always pushes success.  The command
    it pushes is [Stop] when IsVibrationAruidActive, the validator or the
    device reports an error, the value-initialised command when the aruid is
    not active or no GC device is found, and the command the device gave
    otherwise; the device is asked only when it was found for an active
    aruid and a valid handle. *)
Theorem GetActualVibrationGcErmCommand_value {W : Type} (rm : RM W)
    (h : VibrationDeviceHandle) (aruid : Z) (w : W) :
  let '(_, w0) := rm RmInitialize w in
  let '((r0, active), w1) := rm (RmIsVibrationAruidActive aruid false) w0 in
  let '(_, w2) := rm RmInitialize w1 in
  let '(device, w3) := rm (RmGetGcVibrationDevice h) w2 in
  let '(pushed, _, calls) :=
    exec rm
      (GetActualVibrationGcErmCommand IsVibrationHandleValid
         VibrationGcErmCommand_Stop value_initialized_VibrationGcErmCommand
         h aruid) w in
  pushed =
    (ResultSuccess,
     if IsError r0 then VibrationGcErmCommand_Stop
     else if negb active then value_initialized_VibrationGcErmCommand
     else if IsError (IsVibrationHandleValid h) then VibrationGcErmCommand_Stop
     else match device with
          | None => value_initialized_VibrationGcErmCommand
          | Some d =>
              let '((r, c), _) :=
                rm (DevGetActualVibrationGcErmCommand d
                      value_initialized_VibrationGcErmCommand) w3 in
              if IsError r then VibrationGcErmCommand_Stop else c
          end) /\
  calls =
    RmInitialize :: RmIsVibrationAruidActive aruid false ::
    (if IsSuccess r0 && active && IsSuccess (IsVibrationHandleValid h)
     then RmInitialize :: RmGetGcVibrationDevice h ::
          match device with
          | Some d =>
              [DevGetActualVibrationGcErmCommand d
                 value_initialized_VibrationGcErmCommand]
          | None => []
          end
     else []).
Proof.
  unfold GetActualVibrationGcErmCommand. reduce_exec.
  destruct (rm RmInitialize w) as [[] w0].
  destruct (rm (RmIsVibrationAruidActive aruid false) w0) as [[r0 active] w1].
  reduce_exec.
  destruct (rm RmInitialize w1) as [[] w2] eqn:E2.
  destruct (rm (RmGetGcVibrationDevice h) w2) as [device w3] eqn:E3.
  split_flags r0 active h; rewrite ?E2, ?E3; reduce_exec;
    rewrite ?Heqb, ?Heqb0; try (split; reflexivity).
  destruct device as [d|]; reduce_exec.
  - destruct (rm (DevGetActualVibrationGcErmCommand d
                    value_initialized_VibrationGcErmCommand) w3)
      as [[r c] w4].
    split; reflexivity.
  - rewrite Heqb0. split; reflexivity.
Qed.

(** X13.  IsVibrationDeviceMounted pushes the validator's result.  It
    reaches the resource manager only when the validator accepts the handle,
    and it reports mounted only when a device was found and the device says
    so: an invalid handle or a missing device gives false. *)
Theorem IsVibrationDeviceMounted_guarded {W : Type} (rm : RM W)
    (h : VibrationDeviceHandle) (aruid : Z) (w : W) :
  let '(_, w0) := rm RmInitialize w in
  let '(device, w1) := rm (RmGetVibrationDevice h) w0 in
  let '(pushed, _, calls) :=
    exec rm (IsVibrationDeviceMounted IsVibrationHandleValid h aruid) w in
  pushed =
    (IsVibrationHandleValid h,
     if IsSuccess (IsVibrationHandleValid h) then
       match device with
       | Some d => fst (rm (DevIsVibrationMounted d) w1)
       | None => false
       end
     else false) /\
  calls =
    (if IsSuccess (IsVibrationHandleValid h)
     then RmInitialize :: RmGetVibrationDevice h ::
          match device with
          | Some d => [DevIsVibrationMounted d]
          | None => []
          end
     else []).
Proof.
  unfold IsVibrationDeviceMounted. reduce_exec.
  destruct (rm RmInitialize w) as [[] w0] eqn:E0.
  destruct (rm (RmGetVibrationDevice h) w0) as [device w1] eqn:E1.
  destruct (IsSuccess (IsVibrationHandleValid h)); reduce_exec;
    rewrite ?E0, ?E1; [|split; reflexivity].
  destruct device as [d|]; reduce_exec; [|split; reflexivity].
  destruct (rm (DevIsVibrationMounted d) w1) as [m w2]. split; reflexivity.
Qed.

(** X14.  ResetSixAxisSensorFusionParameters always makes both calls, first
    SetSixAxisFusionParameters with the reset values and then
    SetSixAxisFusionEnabled with true, also when the first one fails; it
    returns the first error of the two, or success. *)
Theorem ResetSixAxisSensorFusionParameters_both_calls {W : Type} (rm : RM W)
    (h : SixAxisSensorHandle) (aruid : Z) (w : W) :
  let '(_, w0) := rm RmInitialize w in
  let '(result1, w1) :=
    rm (SixAxisSetSixAxisFusionParameters h reset_fusion_parameters) w0 in
  let '(result2, w2) := rm (SixAxisSetSixAxisFusionEnabled h true) w1 in
  exec rm (ResetSixAxisSensorFusionParameters reset_fusion_parameters h aruid) w
  = (first_failing [result1; result2], w2,
     [RmInitialize;
      SixAxisSetSixAxisFusionParameters h reset_fusion_parameters;
      SixAxisSetSixAxisFusionEnabled h true]).
Proof.
  unfold ResetSixAxisSensorFusionParameters. reduce_exec.
  destruct (rm RmInitialize w) as [[] w0].
  destruct (rm (SixAxisSetSixAxisFusionParameters h reset_fusion_parameters)
              w0) as [result1 w1].
  destruct (rm (SixAxisSetSixAxisFusionEnabled h true) w1) as [result2 w2].
  cbn [first_failing].
  destruct (IsError result1); reduce_exec; [reflexivity|].
  destruct (IsError result2) eqn:E; [reflexivity|].
  now rewrite (not_IsError_ResultSuccess result2 E).
Qed.

End ResourceProperties.

(** * Properties of the command table *)

Lemma increasing_lower_bound (a : Z) (l : list Z) :
  increasing (a :: l) = true -> Forall (fun b => a < b) l.
Proof.
  revert a. induction l as [|b l IH]; intros a H; [constructor|].
  cbn [increasing] in H. apply andb_true_iff in H as [Hab Hl].
  apply Z.ltb_lt in Hab. constructor; [exact Hab|].
  apply (Forall_impl _ _ _ (IH b Hl)). intros c Hc. lia.
Qed.

Lemma increasing_NoDup (l : list Z) : increasing l = true -> NoDup l.
Proof.
  induction l as [|a l IH]; intros H; [constructor|].
  constructor.
  - intros Hin. pose proof (increasing_lower_bound a l H) as Hall.
    rewrite Forall_forall in Hall. specialize (Hall a Hin). lia.
  - apply IH. destruct l as [|b l]; [reflexivity|].
    cbn [increasing] in H. now apply andb_true_iff in H as [_ H].
Qed.

(** X15.  In the command table of IHidServer the command ids are listed in
    strictly increasing order, so no id is registered twice; no name is
    registered twice either, and every entry that has a handler is registered
    under the name of that handler. *)
Theorem functions_table_consistent :
  increasing (map expected_header functions) = true /\
  NoDup (map expected_header functions) /\
  NoDup (map function_name functions) /\
  Forall (fun f => match handler_callback f with
                   | Some callback => callback = function_name f
                   | None => True
                   end) functions.
Proof.
  assert (Hinc : increasing (map expected_header functions) = true)
    by (vm_compute; reflexivity).
  split; [exact Hinc|]. split; [exact (increasing_NoDup _ Hinc)|]. split.
  - apply (bool_decide_unpack (NoDup (map function_name functions))).
    vm_compute. reflexivity.
  - unfold functions.
    repeat (constructor; [cbn; first [reflexivity | exact I]|]).
    constructor.
Qed.

(** * Further examples *)

(** X1 on the new list with a delegate that accepts. *)
Lemma reactivation_is_noop_witness :
  run accepting
    (ActivateVibrationDeviceImpl sample_validator sample_index_out_of_range
       (MkHandle 3 0 0 0)
       (MkList 1 (<[0%nat := MkHandle 3 0 0 0]> (vibration_device_list new_list))))
    1%nat =
  (Some (ResultSuccess,
         MkList 1 (<[0%nat := MkHandle 3 0 0 0]> (vibration_device_list new_list))),
   1%nat, []).
Proof.
  apply (reactivation_is_noop sample_validator sample_index_out_of_range
           accepting (MkHandle 3 0 0 0) new_list 0%nat ResultSuccess _ 1%nat
           [EvDelegate (VibrationDeviceActivate (MkHandle 3 0 0 0))
              ResultSuccess]).
  - split; [vm_compute; reflexivity | vm_compute; lia].
  - reflexivity.
  - reflexivity.
Defined.

(** X2 on the full list: the handle is refused and is not in the list. *)
Lemma success_iff_active_witness :
  exists r self' w' tr,
    run accepting
      (ActivateVibrationDeviceImpl sample_validator sample_index_out_of_range
         (MkHandle 4 0 0 0) full_list) 0%nat = (Some (r, self'), w', tr) /\
    (IsSuccess r = true <-> is_active (MkHandle 4 0 0 0) self' = true).
Proof.
  apply (success_iff_active sample_validator sample_index_out_of_range
           accepting (MkHandle 4 0 0 0) full_list 0%nat).
  - split; [vm_compute; reflexivity | vm_compute; lia].
  - reflexivity.
  - reflexivity.
Defined.

(** X3 with three requests, the second of which repeats the first with
    another padding byte. *)
Lemma list_is_activation_log_witness :
  exists rs self' w' tr,
    run accepting
      (serve_requests sample_validator sample_index_out_of_range
         [MkHandle 3 0 0 0; MkHandle 3 0 0 9; MkHandle 3 1 0 0] new_list)
      0%nat = (Some (rs, self'), w', tr) /\
    length rs = 3%nat /\
    active_handles self' = active_handles new_list ++ activated tr /\
    list_size self' = (list_size new_list + length (activated tr))%nat.
Proof.
  apply (list_is_activation_log sample_validator sample_index_out_of_range
           accepting [MkHandle 3 0 0 0; MkHandle 3 0 0 9; MkHandle 3 1 0 0]
           new_list 0%nat).
  split; [vm_compute; reflexivity | vm_compute; lia].
Defined.

Example serve_requests_sample :
  run accepting
    (serve_requests sample_validator sample_index_out_of_range
       [MkHandle 3 0 0 0; MkHandle 3 0 0 9; MkHandle 3 1 0 0] new_list)
    0%nat =
  (Some ([respond ResultSuccess; respond ResultSuccess; respond ResultSuccess],
         MkList 2 (<[1%nat := MkHandle 3 1 0 0]>
                     (<[0%nat := MkHandle 3 0 0 0]>
                        (vibration_device_list new_list)))),
   2%nat,
   [EvDelegate (VibrationDeviceActivate (MkHandle 3 0 0 0)) ResultSuccess;
    EvDelegate (VibrationDeviceActivate (MkHandle 3 1 0 0)) ResultSuccess]).
Proof. vm_compute. reflexivity. Qed.

(** X4 from the new list. *)
Lemma served_handles_distinct_witness :
  exists rs self' w' tr,
    run accepting
      (serve_requests sample_validator sample_index_out_of_range
         [MkHandle 3 0 0 0; MkHandle 3 0 0 9; MkHandle 3 1 0 0] new_list)
      0%nat = (Some (rs, self'), w', tr) /\
    distinct_handles (active_handles self') = true.
Proof.
  apply (served_handles_distinct sample_validator sample_index_out_of_range
           accepting [MkHandle 3 0 0 0; MkHandle 3 0 0 9; MkHandle 3 1 0 0]
           new_list 0%nat).
  - split; [vm_compute; reflexivity | vm_compute; lia].
  - reflexivity.
Defined.

(** X5 from the new list, with a request that the validator rejects. *)
Lemma served_handles_valid_witness :
  exists rs self' w' tr,
    run accepting
      (serve_requests sample_validator sample_index_out_of_range
         [MkHandle 3 0 0 0; MkHandle 3 256 0 0] new_list)
      0%nat = (Some (rs, self'), w', tr) /\
    forallb (fun e => negb (IsError (sample_validator e)))
            (active_handles self') = true.
Proof.
  apply (served_handles_valid sample_validator sample_index_out_of_range
           accepting [MkHandle 3 0 0 0; MkHandle 3 256 0 0] new_list 0%nat).
  - split; [vm_compute; reflexivity | vm_compute; lia].
  - reflexivity.
Defined.

(** X6 on the full list: a handle that is in the list, one that is not and
    one that is not valid. *)
Lemma full_list_is_frozen_witness :
  run accepting
    (serve_requests sample_validator sample_index_out_of_range
       [MkHandle 3 7 0 0; MkHandle 4 0 0 0; MkHandle 3 256 0 0] full_list)
    0%nat =
  (Some ([respond ResultSuccess; respond sample_index_out_of_range;
          respond (MkResult 1)], full_list), 0%nat, []).
Proof.
  apply (full_list_is_frozen sample_validator sample_index_out_of_range
           accepting [MkHandle 3 7 0 0; MkHandle 4 0 0 0; MkHandle 3 256 0 0]
           full_list 0%nat).
  - split; [vm_compute; reflexivity | vm_compute; lia].
  - reflexivity.
Defined.

(** Runs of the handlers that look a device up. *)
Example GetActualVibrationValue_inactive_aruid :
  exec (fixed_resource_manager ResultSuccess false (Some 5%nat) ResultSuccess)
       (GetActualVibrationValue sample_validator tt tt (MkHandle 3 0 0 0) 7)
       0%nat =
  ((ResultSuccess, tt), 2%nat,
   [RmInitialize; RmIsVibrationAruidActive 7 false]).
Proof. reflexivity. Qed.

Example SendVibrationGcErmCommand_sent :
  exec (fixed_resource_manager ResultSuccess true (Some 5%nat) (MkResult 1))
       (SendVibrationGcErmCommand sample_validator (MkHandle 3 0 0 0) 7 tt)
       0%nat =
  (MkResult 1, 5%nat,
   [RmInitialize; RmIsVibrationAruidActive 7 false; RmInitialize;
    RmGetGcVibrationDevice (MkHandle 3 0 0 0);
    DevSendVibrationGcErmCommand 5%nat tt]).
Proof. reflexivity. Qed.

Example SendVibrationGcErmCommand_invalid_handle :
  exec (fixed_resource_manager ResultSuccess true (Some 5%nat) ResultSuccess)
       (SendVibrationGcErmCommand sample_validator (MkHandle 3 256 0 0) 7 tt)
       0%nat =
  (MkResult 1, 2%nat, [RmInitialize; RmIsVibrationAruidActive 7 false]).
Proof. reflexivity. Qed.

Example ResetSixAxisSensorFusionParameters_after_error :
  exec (fixed_resource_manager ResultSuccess true None (MkResult 1))
       (ResetSixAxisSensorFusionParameters tt tt 7) 0%nat =
  (MkResult 1, 3%nat,
   [RmInitialize; SixAxisSetSixAxisFusionParameters tt tt;
    SixAxisSetSixAxisFusionEnabled tt true]).
Proof. reflexivity. Qed.
